(** * nameko-autocrud: the storage facade and the binding component

    A shallow embedding of [nameko_autocrud/storage.py] (class [DBStorage])
    and of [nameko_autocrud/__init__.py] ([get_dependency_accessor],
    [AutoCrud], [AutoCrudWithEvents]).

    The SQLAlchemy session, its queries and the [sqlalchemy_filters]
    functions are collaborators outside the repository.  They appear as an
    interface ([Orm]); the methods of [DBStorage] are written once over that
    interface, and two executable instances are used to run them: an
    in-memory session and table ([Mem]), and a query engine with joins
    ([Joined]). *)

From Stdlib Require Import ZArith Lia.
From stdpp Require Import base option list sorting strings gmap pretty.

Open Scope Z_scope.

(** ** Python values *)

(** The values that occur as primary keys, attribute values, class
    attributes and accessor results.  [PyObj] is an opaque object (a session,
    a dispatcher, ...) known by its identity; [PyFunction] is a plain
    function or method known by its qualified name; [PyManagerFn] is the
    closure [_fn] that [AutoCrud.bind] builds, known by the two names it
    closes over. *)
Inductive pyval :=
| PyNone
| PyBool (b : bool)
| PyInt (z : Z)
| PyStr (s : string)
| PyObj (id : nat)
| PyFunction (qualname : string)
| PyManagerFn (attr_name fn_name : string).

#[global] Instance pyval_eq_dec : EqDecision pyval.
Proof. solve_decision. Defined.

(** [bool(v)]: what [if v:] and [not v] test. *)
Definition truthy (v : pyval) : bool :=
  match v with
  | PyNone => false
  | PyBool b => b
  | PyInt z => negb (z =? 0)
  | PyStr s => negb (String.eqb s "")
  | PyObj _ => true
  | PyFunction _ => true
  | PyManagerFn _ _ => true
  end.

(** [str(v)], which is what ['{}'.format(v)] inserts. *)
Definition py_str (v : pyval) : string :=
  match v with
  | PyNone => "None"
  | PyBool true => "True"
  | PyBool false => "False"
  | PyInt z => pretty z
  | PyStr s => s
  | PyObj id => "<object " +:+ pretty id +:+ ">"
  | PyFunction q => "<function " +:+ q +:+ ">"
  | PyManagerFn _ _ => "<function AutoCrud.bind.<locals>.make_manager_fn.<locals>._fn>"
  end.

(** An argument whose default is [None] is an [option].  Truth value of an
    optional sequence argument: [None] and the empty sequence are both
    false. *)
Definition seq_truthy {A} (arg : option (list A)) : bool :=
  match arg with
  | Some (_ :: _) => true
  | _ => false
  end.

(** Truth value of an optional integer argument: [None] and [0] are both
    false. *)
Definition int_truthy (arg : option Z) : bool :=
  match arg with
  | Some z => negb (z =? 0)
  | None => false
  end.

Definition seq_of {A} (arg : option (list A)) : list A := default [] arg.
Definition int_of (arg : option Z) : Z := default 0 arg.



(** ** Exceptions and the state-and-exception monad *)

Inductive exn :=
| NotFound (msg : string)             (* storage.NotFound(LookupError) *)
| AttributeError (name : string)
| TypeError (msg : string).

Inductive outcome (A : Type) :=
| Return (a : A)
| Raise (e : exn).
Arguments Return {A} a.
Arguments Raise {A} e.

(** A Python model class: only its name is read by this code. *)
Record Model := { __name__ : string }.

(** ** The ORM interface

    [World] is everything the attached session can reach: the database, the
    objects it has loaded and its unit of work.  [Obj] is a reference to a
    mapped instance; its attributes live in the world. *)
Class Orm := {
  World : Type;
  Obj : Type;
  Query : Type;
  FilterSpec : Type;
  LoadSpec : Type;
  SortSpec : Type;
  (* session.query(model_cls) *)
  session_query : Model → World → Query;
  (* Query.get(pk): the instance, or None *)
  query_get : Query → pyval → option Obj;
  (* sqlalchemy_filters *)
  apply_filters : Query → list FilterSpec → Query;
  apply_loads : Query → list LoadSpec → Query;
  apply_sort : Query → list SortSpec → Query;
  (* Query.offset, Query.limit, Query.all, Query.count *)
  query_offset : Query → Z → Query;
  query_limit : Query → Z → Query;
  query_all : Query → list Obj;
  query_count : Query → Z;
  (* model_cls( **data ) *)
  construct : Model → list (string * pyval) → World → Obj * World;
  (* setattr(obj, key, value) on a mapped instance *)
  setattr : Obj → string → pyval → World → World;
  (* Session.add, .delete, .commit, .flush, .refresh *)
  session_add : Obj → World → World;
  session_delete : Obj → World → World;
  session_commit : World → World;
  session_flush : World → World;
  session_refresh : Obj → World → World;
}.

(** [St S A]: a computation over a mutable state [S] that returns an [A]
    or raises; the state reached when the exception is raised is kept. *)
Definition St (S A : Type) : Type := S → outcome A * S.

#[global] Instance St_ret {S} : MRet (St S) := λ A a w, (Return a, w).

#[global] Instance St_bind {S} : MBind (St S) := λ A B f m w,
  match m w with
  | (Return a, w') => f a w'
  | (Raise e, w') => (Raise e, w')
  end.

Definition raise {S A} (e : exn) : St S A := λ w, (Raise e, w).

(** Read the state without changing it. *)
Definition reads {S A} (f : S → A) : St S A := λ w, (Return (f w), w).

(** Change the state; the Python call returns [None]. *)
Definition modify {S} (f : S → S) : St S unit := λ w, (Return tt, f w).

Definition allocate {S A} (f : S → A * S) : St S A :=
  λ w, let '(a, w') := f w in (Return a, w').

(** ** storage.py *)

Module DBStorage.

Record t := { model_cls : Model; session : pyval }.

(** [def __init__(self, model_cls, session=None)] *)
Definition __init__ (model_cls : Model) (session : pyval) : t :=
  {| model_cls := model_cls; session := session |}.

Section Methods.
Context {O : Orm}.

(** The state the methods run in. *)
Definition M : Type → Type := St World.

(** [self.session.<name>]: an [AttributeError] on a storage whose session
    is still the default [None] (or is no object at all). *)
Definition the_session (self : t) (name : string) : M unit :=
  match session self with
  | PyObj _ => mret tt
  | _ => raise (AttributeError name)
  end.

(** [self.session.<name>(...)] for a method that changes the world. *)
Definition call (self : t) (name : string) (f : World → World) : M unit :=
  the_session self name;; modify f.

(** [@property def query(self)] *)
Definition query (self : t) : M Query :=
  the_session self "query";; reads (session_query (model_cls self)).

(** ['{} with ID {} does not exist'.format(self.model_cls.__name__, pk)] *)
Definition not_found_message (self : t) (pk : pyval) : string :=
  __name__ (model_cls self) +:+ " with ID " +:+ py_str pk
    +:+ " does not exist".

(** [def _get(self, pk)].  A mapped instance is true, so [not obj] holds
    exactly when [Query.get] answered [None]. *)
Definition _get (self : t) (pk : pyval) : M Obj :=
  q ← query self;
  match query_get q pk with
  | None => raise (NotFound (not_found_message self pk))
  | Some obj => mret obj
  end.

(** [def get(self, pk)] *)
Definition get (self : t) (pk : pyval) : M Obj := _get self pk.

(** [def list(self, filters=None, loads=None, order_by=None, offset=None,
    limit=None)] *)
Definition list_ (self : t)
    (filters : option (list FilterSpec)) (loads : option (list LoadSpec))
    (order_by : option (list SortSpec)) (offset limit : option Z)
    : M (list Obj) :=
  query ← query self;
  let query :=
    if seq_truthy filters then apply_filters query (seq_of filters)
    else query in
  let query :=
    if seq_truthy loads then apply_loads query (seq_of loads)
    else query in
  let query :=
    if seq_truthy order_by then apply_sort query (seq_of order_by)
    else query in
  let query :=
    if int_truthy offset then query_offset query (int_of offset)
    else query in
  let query :=
    if int_truthy limit then query_limit query (int_of limit)
    else query in
  mret (query_all query).

(** [def count(self, filters=None)] *)
Definition count (self : t) (filters : option (list FilterSpec)) : M Z :=
  query ← query self;
  let query :=
    if seq_truthy filters then apply_filters query (seq_of filters)
    else query in
  mret (query_count query).

(** [for key, value in data.items(): setattr(obj, key, value)]; the items
    of a dict come in insertion order. *)
Definition setattrs (obj : Obj) (data : list (string * pyval))
    (w : World) : World :=
  foldl (λ w kv, setattr obj kv.1 kv.2 w) w data.

(** [def update(self, pk, data, flush=True, commit=True)] *)
Definition update (self : t) (pk : pyval) (data : list (string * pyval))
    (flush commit : bool) : M Obj :=
  obj ← _get self pk;
  modify (setattrs obj data);;
  (if commit then
     call self "commit" session_commit;;
     call self "refresh" (session_refresh obj)
   else if flush then
     call self "flush" session_flush;;
     call self "refresh" (session_refresh obj)
   else mret tt);;
  mret obj.

(** [def create(self, data, flush=True, commit=True)] *)
Definition create (self : t) (data : list (string * pyval))
    (flush commit : bool) : M Obj :=
  obj ← allocate (construct (model_cls self) data);
  call self "add" (session_add obj);;
  (if commit then
     call self "commit" session_commit;;
     call self "refresh" (session_refresh obj)
   else if flush then
     call self "flush" session_flush;;
     call self "refresh" (session_refresh obj)
   else mret tt);;
  mret obj.

(** [def delete(self, pk, flush=True, commit=True)]; it returns [None]. *)
Definition delete (self : t) (pk : pyval) (flush commit : bool) : M unit :=
  obj ← _get self pk;
  call self "delete" (session_delete obj);;
  (if commit then call self "commit" session_commit
   else if flush then call self "flush" session_flush
   else mret tt).

End Methods.
End DBStorage.

(** ** An in-memory ORM

    A small executable stand-in for the session and the query engine: a
    table of rows, each bound to the instance that maps it, a unit of work
    that collects additions and removals until the next flush, and queries
    that are evaluated the way SQL evaluates them (WHERE, ORDER BY, OFFSET,
    LIMIT) whatever the order in which they were refined.  The primary-key
    column is ["id"]. *)

Module Mem.

Inductive op := OpEq | OpNe | OpLt | OpLe | OpGt | OpGe.

Record filter_spec := { f_field : string; f_op : op; f_value : pyval }.
Record sort_spec := { s_field : string; s_desc : bool }.

Record query := {
  q_rows : list (nat * gmap string pyval);
  q_where : list filter_spec;
  q_order : list sort_spec;
  q_offset : option Z;
  q_limit : option Z;
}.

Record world := {
  heap : gmap nat (gmap string pyval);
  rows : list (nat * gmap string pyval);
  added : list nat;
  removed : list nat;
  durable : list (nat * gmap string pyval);
  next_id : Z;
}.

Definition py_compare (a b : pyval) : comparison :=
  match a, b with
  | PyInt x, PyInt y => Z.compare x y
  | PyStr x, PyStr y => String.compare x y
  | _, _ => Eq
  end.

Definition holds (o : op) (c : comparison) : bool :=
  match o, c with
  | OpEq, Eq | OpNe, Lt | OpNe, Gt | OpLt, Lt | OpLe, Lt | OpLe, Eq
  | OpGt, Gt | OpGe, Gt | OpGe, Eq => true
  | _, _ => false
  end.

Definition column (cols : gmap string pyval) (field : string) : pyval :=
  default PyNone (cols !! field).

Definition matches (cols : gmap string pyval) (f : filter_spec) : bool :=
  holds (f_op f) (py_compare (column cols (f_field f)) (f_value f)).

Fixpoint before (order : list sort_spec) (a b : gmap string pyval) : bool :=
  match order with
  | [] => true
  | s :: order' =>
      let c := py_compare (column a (s_field s)) (column b (s_field s)) in
      match (if s_desc s then CompOpp c else c) with
      | Lt => true
      | Gt => false
      | Eq => before order' a b
      end
  end.

Fixpoint place (order : list sort_spec) (r : nat * gmap string pyval)
    (sorted : list (nat * gmap string pyval)) :=
  match sorted with
  | [] => [r]
  | r' :: rest =>
      if before order r.2 r'.2 then r :: sorted
      else r' :: place order r rest
  end.

Definition order_rows (order : list sort_spec)
    (rs : list (nat * gmap string pyval)) :=
  match order with
  | [] => rs
  | _ => foldr (place order) [] rs
  end.

(** The rows a query selects. *)
Definition select (q : query) : list (nat * gmap string pyval) :=
  let rs := filter (λ r, forallb (matches r.2) (q_where q) = true) (q_rows q) in
  let rs := order_rows (q_order q) rs in
  let rs := from_option (λ o, drop (Z.to_nat o) rs) rs (q_offset q) in
  from_option (λ l, take (Z.to_nat l) rs) rs (q_limit q).

Definition find_pk (pk : pyval) (rs : list (nat * gmap string pyval))
    : option nat :=
  fst <$> list_find (λ r, r.2 !! "id" = Some pk) rs.

(** Flush: write the state of each loaded instance back to its row, drop
    the removed rows, insert the added instances (numbering those without
    a key), and empty the unit of work. *)
Definition write_back (w : world) : list (nat * gmap string pyval) :=
  (λ r, (r.1, default r.2 (heap w !! r.1))) <$> rows w.

Definition insert_row (w : world) (o : nat) : world :=
  let cols := default ∅ (heap w !! o) in
  match cols !! "id" with
  | Some _ =>
      {| heap := heap w; rows := rows w ++ [(o, cols)]; added := added w;
         removed := removed w; durable := durable w; next_id := next_id w |}
  | None =>
      let cols := <["id" := PyInt (next_id w)]> cols in
      {| heap := <[o := cols]> (heap w); rows := rows w ++ [(o, cols)];
         added := added w; removed := removed w; durable := durable w;
         next_id := next_id w + 1 |}
  end.

Definition flush (w : world) : world :=
  let kept := filter (λ r, r.1 ∉ removed w) (write_back w) in
  let w' := {| heap := heap w; rows := kept; added := []; removed := [];
               durable := durable w; next_id := next_id w |} in
  foldl insert_row w' (added w).

Definition commit (w : world) : world :=
  let w' := flush w in
  {| heap := heap w'; rows := rows w'; added := added w';
     removed := removed w'; durable := rows w'; next_id := next_id w' |}.

Definition refresh (o : nat) (w : world) : world :=
  match list_find (λ r, r.1 = o) (rows w) with
  | Some (_, r) =>
      {| heap := <[o := r.2]> (heap w); rows := rows w; added := added w;
         removed := removed w; durable := durable w; next_id := next_id w |}
  | None => w
  end.

Definition new_instance (data : list (string * pyval)) (w : world)
    : nat * world :=
  let o := size (heap w) in
  (o, {| heap := <[o := list_to_map data]> (heap w); rows := rows w;
         added := added w; removed := removed w; durable := durable w;
         next_id := next_id w |}).

Definition set_attribute (o : nat) (k : string) (v : pyval) (w : world)
    : world :=
  {| heap := <[o := <[k := v]> (default ∅ (heap w !! o))]> (heap w);
     rows := rows w; added := added w; removed := removed w;
     durable := durable w; next_id := next_id w |}.

Definition add (o : nat) (w : world) : world :=
  {| heap := heap w; rows := rows w; added := added w ++ [o];
     removed := removed w; durable := durable w; next_id := next_id w |}.

Definition remove (o : nat) (w : world) : world :=
  {| heap := heap w; rows := rows w; added := added w;
     removed := removed w ++ [o]; durable := durable w;
     next_id := next_id w |}.

#[global] Instance orm : Orm := {|
  World := world;
  Obj := nat;
  Query := query;
  FilterSpec := filter_spec;
  LoadSpec := string;
  SortSpec := sort_spec;
  session_query := λ _ w,
    {| q_rows := rows w; q_where := []; q_order := [];
       q_offset := None; q_limit := None |};
  query_get := λ q pk, find_pk pk (q_rows q);
  apply_filters := λ q fs,
    {| q_rows := q_rows q; q_where := q_where q ++ fs; q_order := q_order q;
       q_offset := q_offset q; q_limit := q_limit q |};
  apply_loads := λ q _, q;
  apply_sort := λ q ss,
    {| q_rows := q_rows q; q_where := q_where q; q_order := q_order q ++ ss;
       q_offset := q_offset q; q_limit := q_limit q |};
  query_offset := λ q o,
    {| q_rows := q_rows q; q_where := q_where q; q_order := q_order q;
       q_offset := Some o; q_limit := q_limit q |};
  query_limit := λ q l,
    {| q_rows := q_rows q; q_where := q_where q; q_order := q_order q;
       q_offset := q_offset q; q_limit := Some l |};
  query_all := λ q, fst <$> select q;
  query_count := λ q, Z.of_nat (length (select q));
  construct := λ _, new_instance;
  setattr := set_attribute;
  session_add := add;
  session_delete := remove;
  session_commit := commit;
  session_flush := flush;
  session_refresh := refresh;
|}.

(** A database with nothing in it, and the session that is attached to the
    storage of the examples. *)
Definition empty : world :=
  {| heap := ∅; rows := []; added := []; removed := []; durable := [];
     next_id := 1 |}.

Definition Widget : Model := {| __name__ := "Widget" |}.

Definition storage : DBStorage.t := DBStorage.__init__ Widget (PyObj 0).

(** The world an action leaves behind, and its result. *)
Definition after {A} (m : DBStorage.M A) (w : world) : world := (m w).2.
Definition result {A} (m : DBStorage.M A) (w : world) : outcome A := (m w).1.

(** Three widgets, committed. *)
Definition three : world :=
  let w := after (DBStorage.create storage [("name", PyStr "c")] true true) empty in
  let w := after (DBStorage.create storage [("name", PyStr "a")] true true) w in
  after (DBStorage.create storage [("name", PyStr "b")] true true) w.

End Mem.

(** ** An engine with joins

    A second executable stand-in, for the query side alone, that keeps the
    two things SQLAlchemy tells apart: the rows a statement selects and the
    entities they hold.  A filter names the kind a part of the widget must
    have, which joins the parts: a widget with two such parts is selected
    twice.  [Query.count] counts the selected rows; [Query.all] returns each
    entity once.  The session side is not used and does nothing. *)

Module Joined.

Record world := {
  widgets : list Z;
  parts : list (Z * string);
}.

Record query := {
  q_world : world;
  q_kinds : list string;
  q_offset : option Z;
  q_limit : option Z;
}.

(** The rows of the statement, before OFFSET and LIMIT. *)
Definition joined_rows (q : query) : list Z :=
  match q_kinds q with
  | [] => widgets (q_world q)
  | kinds =>
      w ← widgets (q_world q);
      (λ _, w) <$>
        filter (λ p, p.1 = w ∧ Forall (λ k, p.2 = k) kinds)
          (parts (q_world q))
  end.

Definition rows (q : query) : list Z :=
  let rs := joined_rows q in
  let rs := from_option (λ o, drop (Z.to_nat o) rs) rs (q_offset q) in
  from_option (λ l, take (Z.to_nat l) rs) rs (q_limit q).

Definition orm : Orm := {|
  World := world;
  Obj := Z;
  Query := query;
  FilterSpec := string;
  LoadSpec := string;
  SortSpec := string;
  session_query := λ _ w,
    {| q_world := w; q_kinds := []; q_offset := None; q_limit := None |};
  query_get := λ q pk,
    match pk with
    | PyInt z => if decide (z ∈ widgets (q_world q)) then Some z else None
    | _ => None
    end;
  apply_filters := λ q ks,
    {| q_world := q_world q; q_kinds := q_kinds q ++ ks;
       q_offset := q_offset q; q_limit := q_limit q |};
  apply_loads := λ q _, q;
  apply_sort := λ q _, q;
  query_offset := λ q o,
    {| q_world := q_world q; q_kinds := q_kinds q;
       q_offset := Some o; q_limit := q_limit q |};
  query_limit := λ q l,
    {| q_world := q_world q; q_kinds := q_kinds q;
       q_offset := q_offset q; q_limit := Some l |};
  query_all := λ q, remove_dups (rows q);
  query_count := λ q, Z.of_nat (length (rows q));
  construct := λ _ _ w, (0, w);
  setattr := λ _ _ _ w, w;
  session_add := λ _ w, w;
  session_delete := λ _ w, w;
  session_commit := λ w, w;
  session_flush := λ w, w;
  session_refresh := λ _ w, w;
|}.

(** Two widgets; the first has two bolts and a nut, the second a nut. *)
Definition db : world :=
  {| widgets := [1; 2];
     parts := [(1, "bolt"); (1, "bolt"); (1, "nut"); (2, "nut")] |}.

Definition with_a_bolt : option (list string) := Some ["bolt"].

End Joined.


(** ** __init__.py *)

(** [str.lower] on the ASCII letters, which is all a class name usually
    holds. *)
Definition lower_ascii (c : Ascii.ascii) : Ascii.ascii :=
  let n := Ascii.nat_of_ascii c in
  if ((65 <=? n) && (n <=? 90))%nat then Ascii.ascii_of_nat (n + 32) else c.

Fixpoint lower (s : string) : string :=
  match s with
  | EmptyString => EmptyString
  | String c s' => String (lower_ascii c) (lower s')
  end.

(** Truth value of a name that is a string or [None]. *)
Definition name_truthy (name : option string) : bool :=
  truthy (from_option PyStr PyNone name).

Module AutoCrud.

(** A keyword argument [..._method_name]: the sentinel [DEFAULT = object()],
    or what the caller passed, a string or [None]. *)
Inductive method_name :=
| DEFAULT
| Custom (name : option string).

(** A service instance: its attributes, and the storage facades that
    attribute values of the form [PyObj id] may refer to. *)
Record Service := {
  attrs : gmap string pyval;
  storages : gmap nat DBStorage.t;
}.

(** [getattr(service, name)] *)
Definition getattr (name : string) : St Service pyval :=
  λ service,
    match attrs service !! name with
    | Some v => (Return v, service)
    | None => (Raise (AttributeError name), service)
    end.

(** What can be passed as [session_provider] or [dispatcher_provider]: a
    [str]; a [DependencyProvider], of which only [attr_name] is read ([None]
    until the provider is bound); or anything else, which is called if it
    can be called. *)
Inductive provider :=
| ProviderStr (name : string)
| ProviderDependency (attr_name : option string)
| ProviderOther (call : option (St Service pyval)).

(** [def get_dependency_accessor(accessor)]: the closure
    [get_dependency(service)]. *)
Definition get_dependency_accessor (accessor : provider)
    : St Service pyval :=
  match accessor with
  | ProviderStr name => getattr name
  | ProviderDependency (Some attr_name) => getattr attr_name
  | ProviderDependency None =>
      raise (TypeError "attribute name must be string")
  | ProviderOther (Some call) => call
  | ProviderOther None => raise (TypeError "object is not callable")
  end.

(** A value of [**crud_manager_kwargs]. *)
Inductive kwarg :=
| KwValue (v : pyval)
| KwAccessor (get_dependency : St Service pyval).

(** The provider.  [manager_cls], [db_storage_cls] and the two serializers
    are stored as given and are left out; [attr_name] is set by [bind]. *)
Record t := {
  session_accessor : St Service pyval;
  model_cls : Model;
  crud_manager_kwargs : list (string * kwarg);
  entity_name : string;
  entity_name_plural : string;
  method_names : list (string * option string);
  attr_name : option string;
}.

(** [def make_methodname(prefix, custom, plural=False)], local to
    [__init__]; the two entity names are the ones it closes over. *)
Definition make_methodname (entity_name entity_name_plural : string)
    (prefix : string) (custom : method_name) (plural : bool)
    : option string :=
  match custom with
  | DEFAULT =>
      Some (prefix +:+ (if plural then entity_name_plural else entity_name))
  | Custom name => name
  end.

(** [def __init__(self, session_provider, ..., **crud_manager_kwargs)] *)
Definition __init__ (session_provider : provider) (model_cls : Model)
    (entity_name entity_name_plural : option string)
    (get_method_name list_method_name page_method_name count_method_name
     create_method_name update_method_name delete_method_name : method_name)
    (crud_manager_kwargs : list (string * kwarg)) : t :=
  let entity_name :=
    if name_truthy entity_name then default "" entity_name
    else lower (__name__ model_cls) in
  let entity_name_plural :=
    if name_truthy entity_name_plural then default "" entity_name_plural
    else entity_name +:+ "s" in
  let make_methodname := make_methodname entity_name entity_name_plural in
  {| session_accessor := get_dependency_accessor session_provider;
     model_cls := model_cls;
     crud_manager_kwargs := crud_manager_kwargs;
     entity_name := entity_name;
     entity_name_plural := entity_name_plural;
     method_names :=
       [ ("get", make_methodname "get_" get_method_name false);
         ("list", make_methodname "list_" list_method_name true);
         ("page", make_methodname "page_" page_method_name true);
         ("count", make_methodname "count_" count_method_name true);
         ("create", make_methodname "create_" create_method_name false);
         ("update", make_methodname "update_" update_method_name false);
         ("delete", make_methodname "delete_" delete_method_name false) ];
     attr_name := None |}.

(** [getattr(service_cls, rpc_name, None)]: what attribute lookup on the
    class finds, [None] if nothing. *)
Definition class_getattr (service_cls : gmap string pyval) (name : string)
    : pyval :=
  default PyNone (service_cls !! name).

(** The body of the loop in [bind]:
    [if rpc_name and not getattr(service_cls, rpc_name, None):
         setattr(service_cls, rpc_name, manager_fn); rpc(manager_fn)]. *)
Definition bind_method (attr_name : string)
    (service_cls : gmap string pyval) (item : string * option string)
    : gmap string pyval :=
  let '(manager_fn_name, rpc_name) := item in
  if name_truthy rpc_name
     && negb (truthy (class_getattr service_cls (default "" rpc_name)))
  then <[default "" rpc_name := PyManagerFn attr_name manager_fn_name]>
         service_cls
  else service_cls.

(** [def bind(self, container, attr_name)]: the bound clone of the
    provider, and the service class as the loop leaves it. *)
Definition bind (self : t) (service_cls : gmap string pyval)
    (attr_name : string) : t * gmap string pyval :=
  let bound :=
    {| session_accessor := session_accessor self;
       model_cls := model_cls self;
       crud_manager_kwargs := crud_manager_kwargs self;
       entity_name := entity_name self;
       entity_name_plural := entity_name_plural self;
       method_names := method_names self;
       attr_name := Some attr_name |} in
  (bound, foldl (bind_method attr_name) service_cls (method_names self)).

(** [def get_dependency(self, worker_ctx)], with the default
    [db_storage_cls]. *)
Definition get_dependency (self : t) : DBStorage.t :=
  DBStorage.__init__ (model_cls self) PyNone.

(** [db_storage.session = session] *)
Definition set_session (db_storage session : pyval) : St Service unit :=
  λ service,
    match db_storage with
    | PyObj id =>
        match storages service !! id with
        | Some st =>
            (Return tt,
             {| attrs := attrs service;
                storages :=
                  <[id := {| DBStorage.model_cls := DBStorage.model_cls st;
                             DBStorage.session := session |}]>
                    (storages service) |})
        | None => (Raise (AttributeError "session"), service)
        end
    | _ => (Raise (AttributeError "session"), service)
    end.

(** [def worker_setup(self, worker_ctx)], on [worker_ctx.service]. *)
Definition worker_setup (self : t) : St Service unit :=
  session ← session_accessor self;
  db_storage ←
    match attr_name self with
    | Some name => getattr name
    | None => raise (TypeError "attribute name must be string")
    end;
  set_session db_storage session.

End AutoCrud.

Module AutoCrudWithEvents.

(** [def __init__(self, session_provider, dispatcher_provider, **kwargs)] *)
Definition __init__ (session_provider dispatcher_provider : AutoCrud.provider)
    (model_cls : Model) (entity_name entity_name_plural : option string)
    (get_method_name list_method_name page_method_name count_method_name
     create_method_name update_method_name delete_method_name
       : AutoCrud.method_name)
    (kwargs : list (string * AutoCrud.kwarg)) : AutoCrud.t :=
  let dispatcher_accessor :=
    AutoCrud.get_dependency_accessor dispatcher_provider in
  AutoCrud.__init__ session_provider model_cls entity_name
    entity_name_plural get_method_name list_method_name page_method_name
    count_method_name create_method_name update_method_name
    delete_method_name
    (("dispatcher_accessor", AutoCrud.KwAccessor dispatcher_accessor)
       :: kwargs).

End AutoCrudWithEvents.

(** ** Notions the statements are written in *)

(** [sub] occurs in [s]. *)
Definition occurs_in (sub s : string) : Prop :=
  ∃ before after, s = before +:+ sub +:+ after.

Section Notions.
Context {O : Orm}.

(** The storage has a session attached, as [worker_setup] leaves it. *)
Definition attached (self : DBStorage.t) : bool :=
  match DBStorage.session self with
  | PyObj _ => true
  | _ => false
  end.

(** [pk] resolves to no object in the world [w]. *)
Definition unresolved (self : DBStorage.t) (pk : pyval) (w : World) : Prop :=
  query_get (session_query (DBStorage.model_cls self) w) pk = None.

(** [pk] resolves to [obj] in the world [w]. *)
Definition resolves (self : DBStorage.t) (pk : pyval) (w : World)
    (obj : Obj) : Prop :=
  query_get (session_query (DBStorage.model_cls self) w) pk = Some obj.

(** The durability policy in the words of the specification: a commit if
    one is requested, else a flush if one is requested, else nothing. *)
Inductive sync := Commit | Flush.

Definition durability (flush commit : bool) : option sync :=
  if commit then Some Commit else if flush then Some Flush else None.

(** What the policy does to the world, followed by a refresh of [refresh]
    when there is one. *)
Definition settle (policy : option sync) (refresh : option Obj)
    (w : World) : World :=
  match policy with
  | None => w
  | Some s =>
      let w := match s with
               | Commit => session_commit w
               | Flush => session_flush w
               end in
      from_option (λ obj, session_refresh obj w) w refresh
  end.

(** One refinement of a query, and the place it has in the fixed order. *)
Inductive refinement :=
| Filters (spec : list FilterSpec)
| Loads (spec : list LoadSpec)
| Sort (spec : list SortSpec)
| Offset (n : Z)
| Limit (n : Z).

Definition rank (r : refinement) : nat :=
  match r with
  | Filters _ => 0 | Loads _ => 1 | Sort _ => 2 | Offset _ => 3 | Limit _ => 4
  end.

Definition refine (q : Query) (r : refinement) : Query :=
  match r with
  | Filters spec => apply_filters q spec
  | Loads spec => apply_loads q spec
  | Sort spec => apply_sort q spec
  | Offset n => query_offset q n
  | Limit n => query_limit q n
  end.

(** The refinements a call of [list] asks for: one for each argument that
    is given and true, in the order filters, loads, ordering, offset,
    limit. *)
Definition plan (filters : option (list FilterSpec))
    (loads : option (list LoadSpec)) (order_by : option (list SortSpec))
    (offset limit : option Z) : list refinement :=
  (if seq_truthy filters then [Filters (seq_of filters)] else [])
  ++ (if seq_truthy loads then [Loads (seq_of loads)] else [])
  ++ (if seq_truthy order_by then [Sort (seq_of order_by)] else [])
  ++ (if int_truthy offset then [Offset (int_of offset)] else [])
  ++ (if int_truthy limit then [Limit (int_of limit)] else []).

(** The argument a refinement came from. *)
Definition given (filters : option (list FilterSpec))
    (loads : option (list LoadSpec)) (order_by : option (list SortSpec))
    (offset limit : option Z) (r : refinement) : Prop :=
  match r with
  | Filters spec => filters = Some spec
  | Loads spec => loads = Some spec
  | Sort spec => order_by = Some spec
  | Offset n => offset = Some n
  | Limit n => limit = Some n
  end.

(** The query [list] and [count] start from. *)
Definition base_query (self : DBStorage.t) (w : World) : Query :=
  session_query (DBStorage.model_cls self) w.

(** Contract of the engine: [Query.count] counts the rows [Query.all]
    returns. *)
Definition count_agrees : Prop :=
  ∀ q, query_count q = Z.of_nat (length (query_all q)).

(** Contract of the engine on a query [q]: OFFSET drops rows from the front
    of the result of [q] and LIMIT keeps rows at the front of what is
    left. *)
Definition paginates (q : Query) : Prop :=
  ∀ o l, 0 ≤ o → 0 ≤ l →
    query_all (query_offset q o) = drop (Z.to_nat o) (query_all q)
    ∧ query_all (query_limit q l) = take (Z.to_nat l) (query_all q)
    ∧ query_all (query_limit (query_offset q o) l)
      = take (Z.to_nat l) (drop (Z.to_nat o) (query_all q)).

(** An argument with its false values replaced by [None]. *)
Definition seq_given {A} (arg : option (list A)) : option (list A) :=
  if seq_truthy arg then arg else None.

Definition int_given (arg : option Z) : option Z :=
  if int_truthy arg then arg else None.

End Notions.

(** ** Data of the examples *)

(** Sort by name; keep the rows whose key is at least 2. *)
Definition by_name : option (list Mem.sort_spec) :=
  Some [{| Mem.s_field := "name"; Mem.s_desc := false |}].

Definition from_second : option (list Mem.filter_spec) :=
  Some [{| Mem.f_field := "id"; Mem.f_op := Mem.OpGe;
           Mem.f_value := PyInt 2 |}].

(** [crud = AutoCrud('db', model_cls=Widget)], every method name left at
    its default. *)
Definition widget_crud : AutoCrud.t :=
  AutoCrud.__init__ (AutoCrud.ProviderStr "db") Mem.Widget None None
    AutoCrud.DEFAULT AutoCrud.DEFAULT AutoCrud.DEFAULT AutoCrud.DEFAULT
    AutoCrud.DEFAULT AutoCrud.DEFAULT AutoCrud.DEFAULT [].

(** The same with [list] served under the name [all_widgets] and [page]
    suppressed by an empty name. *)
Definition custom_crud : AutoCrud.t :=
  AutoCrud.__init__ (AutoCrud.ProviderStr "db") Mem.Widget None None
    AutoCrud.DEFAULT (AutoCrud.Custom (Some "all_widgets"))
    (AutoCrud.Custom (Some "")) AutoCrud.DEFAULT
    AutoCrud.DEFAULT AutoCrud.DEFAULT AutoCrud.DEFAULT [].

(** The same with [list] and [page] both served under the name [widgets],
    and the same with every operation suppressed. *)
Definition clashing_crud : AutoCrud.t :=
  AutoCrud.__init__ (AutoCrud.ProviderStr "db") Mem.Widget None None
    AutoCrud.DEFAULT (AutoCrud.Custom (Some "widgets"))
    (AutoCrud.Custom (Some "widgets")) AutoCrud.DEFAULT
    AutoCrud.DEFAULT AutoCrud.DEFAULT AutoCrud.DEFAULT [].

Definition silent_crud : AutoCrud.t :=
  AutoCrud.__init__ (AutoCrud.ProviderStr "db") Mem.Widget None None
    (AutoCrud.Custom None) (AutoCrud.Custom None) (AutoCrud.Custom None)
    (AutoCrud.Custom (Some "")) (AutoCrud.Custom (Some ""))
    (AutoCrud.Custom (Some "")) (AutoCrud.Custom None) [].

(** [widget_crud] once it is bound under [crud], and a service instance
    that has the session under [db] and, under [crud], the storage that
    [get_dependency] made; the same service without the session. *)
Definition bound_crud : AutoCrud.t :=
  (AutoCrud.bind widget_crud ∅ "crud").1.

Definition ready_service : AutoCrud.Service :=
  {| AutoCrud.attrs := {["db" := PyObj 5; "crud" := PyObj 0]};
     AutoCrud.storages :=
       {[0%nat := AutoCrud.get_dependency bound_crud]} |}.

Definition sessionless_service : AutoCrud.Service :=
  {| AutoCrud.attrs := {["crud" := PyObj 0]};
     AutoCrud.storages :=
       {[0%nat := AutoCrud.get_dependency bound_crud]} |}.

(** A service class that declares [get_widget = None], and one that defines
    a method [get_widget] of its own. *)
Definition placeholder_class : gmap string pyval :=
  {["get_widget" := PyNone]}.

Definition user_class : gmap string pyval :=
  {["get_widget" := PyFunction "Service.get_widget"]}.

(** A callable accessor that hands out the session [PyObj 7] and counts,
    in the attribute [resolutions] of the service, how often it is
    called. *)
Definition counting_accessor : St AutoCrud.Service pyval :=
  λ service,
    let n := match AutoCrud.attrs service !! "resolutions" with
             | Some (PyInt n) => n
             | _ => 0
             end in
    (Return (PyObj 7),
     {| AutoCrud.attrs :=
          <["resolutions" := PyInt (n + 1)]> (AutoCrud.attrs service);
        AutoCrud.storages := AutoCrud.storages service |}).

Definition counting_crud : AutoCrud.t :=
  (AutoCrud.bind
     (AutoCrud.__init__ (AutoCrud.ProviderOther (Some counting_accessor))
        Mem.Widget None None
        AutoCrud.DEFAULT AutoCrud.DEFAULT AutoCrud.DEFAULT AutoCrud.DEFAULT
        AutoCrud.DEFAULT AutoCrud.DEFAULT AutoCrud.DEFAULT [])
     ∅ "crud").1.

(** A service instance in which the container has injected, under [crud],
    the storage that [get_dependency] made. *)
Definition worker_service : AutoCrud.Service :=
  {| AutoCrud.attrs := {["crud" := PyObj 0]};
     AutoCrud.storages :=
       {[0%nat := AutoCrud.get_dependency counting_crud]} |}.

(** ** Facts about the storage facade *)

Section StorageFacts.
Context {O : Orm}.
Implicit Types (self : DBStorage.t) (pk : pyval) (w : World).

Lemma the_session_attached self name w :
  attached self = true → DBStorage.the_session self name w = (Return tt, w).
Proof.
  unfold attached, DBStorage.the_session.
  destruct (DBStorage.session self); intros H; try discriminate H.
  reflexivity.
Qed.

Lemma call_attached self name f w :
  attached self = true → DBStorage.call self name f w = (Return tt, f w).
Proof.
  intros H. unfold DBStorage.call, mbind, St_bind.
  rewrite the_session_attached by exact H. reflexivity.
Qed.

Lemma query_attached self w :
  attached self = true →
  DBStorage.query self w = (Return (base_query self w), w).
Proof.
  intros H. unfold DBStorage.query, mbind, St_bind.
  rewrite the_session_attached by exact H. reflexivity.
Qed.

Lemma _get_unresolved self pk w :
  attached self = true → unresolved self pk w →
  DBStorage._get self pk w
  = (Raise (NotFound (DBStorage.not_found_message self pk)), w).
Proof.
  intros H Hpk. unfold DBStorage._get, mbind, St_bind.
  rewrite query_attached by exact H.
  unfold unresolved in Hpk. unfold base_query. rewrite Hpk. reflexivity.
Qed.

Lemma _get_resolves self pk w obj :
  attached self = true → resolves self pk w obj →
  DBStorage._get self pk w = (Return obj, w).
Proof.
  intros H Hpk. unfold DBStorage._get, mbind, St_bind.
  rewrite query_attached by exact H.
  unfold resolves in Hpk. unfold base_query. rewrite Hpk. reflexivity.
Qed.

Lemma append_assoc (a b c : string) : (a +:+ b) +:+ c = a +:+ b +:+ c.
Proof.
  induction a as [|x a IH]; [reflexivity |].
  change (String x ((a +:+ b) +:+ c) = String x (a +:+ b +:+ c)).
  by rewrite IH.
Qed.

Lemma message_names_model_and_key self pk :
  occurs_in (__name__ (DBStorage.model_cls self))
            (DBStorage.not_found_message self pk)
  ∧ occurs_in (py_str pk) (DBStorage.not_found_message self pk).
Proof.
  unfold DBStorage.not_found_message. split.
  - exists "", (" with ID " +:+ py_str pk +:+ " does not exist").
    reflexivity.
  - exists (__name__ (DBStorage.model_cls self) +:+ " with ID "),
      " does not exist".
    by rewrite append_assoc.
Qed.

(** C1.  On a storage with a session, when [pk] resolves to no object,
    [get], [update] and [delete] each raise [NotFound]; the message is
    [<model name> with ID <pk> does not exist], in which both the name of
    the model class and the key occur. *)
Theorem missing_key_raises_NotFound self pk data flush commit w :
  attached self = true → unresolved self pk w →
  let msg := __name__ (DBStorage.model_cls self) +:+ " with ID "
               +:+ py_str pk +:+ " does not exist" in
  (DBStorage.get self pk w).1 = Raise (NotFound msg)
  ∧ (DBStorage.update self pk data flush commit w).1 = Raise (NotFound msg)
  ∧ (DBStorage.delete self pk flush commit w).1 = Raise (NotFound msg)
  ∧ occurs_in (__name__ (DBStorage.model_cls self)) msg
  ∧ occurs_in (py_str pk) msg.
Proof.
  intros H Hpk msg.
  pose proof (_get_unresolved self pk w H Hpk) as Hget.
  repeat split.
  - unfold DBStorage.get. by rewrite Hget.
  - unfold DBStorage.update, mbind, St_bind. by rewrite Hget.
  - unfold DBStorage.delete, mbind, St_bind. by rewrite Hget.
  - apply (message_names_model_and_key self pk).
  - apply (message_names_model_and_key self pk).
Qed.


(** C2.  The three mutating methods follow one durability policy.  With
    [commit] set the session is committed whatever [flush] is; otherwise
    with [flush] set it is flushed; with neither, the world is left as the
    mutation itself made it, with the change pending.  After the commit or
    the flush [create] and [update] refresh the object they return, and
    [delete] refreshes nothing. *)
Theorem mutations_follow_durability_policy self flush commit w :
  attached self = true →
  (∀ data,
     let '(obj, w1) := construct (DBStorage.model_cls self) data w in
     DBStorage.create self data flush commit w
     = (Return obj,
        settle (durability flush commit) (Some obj) (session_add obj w1)))
  ∧ (∀ pk data obj, resolves self pk w obj →
     DBStorage.update self pk data flush commit w
     = (Return obj,
        settle (durability flush commit) (Some obj)
          (DBStorage.setattrs obj data w)))
  ∧ (∀ pk obj, resolves self pk w obj →
     DBStorage.delete self pk flush commit w
     = (Return tt,
        settle (durability flush commit) None (session_delete obj w)))
  ∧ durability flush true = Some Commit
  ∧ durability true false = Some Flush
  ∧ durability false false = None.
Proof.
  intros H. repeat split.
  - intros data. destruct (construct _ data w) as [obj w1] eqn:Hc.
    unfold DBStorage.create, mbind, St_bind, allocate. rewrite Hc.
    rewrite call_attached by exact H.
    destruct commit; [|destruct flush]; simpl;
      rewrite ?call_attached by exact H; reflexivity.
  - intros pk data obj Hpk.
    unfold DBStorage.update, mbind, St_bind.
    rewrite (_get_resolves self pk w obj H Hpk). unfold modify at 1.
    destruct commit; [|destruct flush]; simpl;
      rewrite ?call_attached by exact H; reflexivity.
  - intros pk obj Hpk.
    unfold DBStorage.delete, mbind, St_bind.
    rewrite (_get_resolves self pk w obj H Hpk).
    rewrite call_attached by exact H.
    destruct commit; [|destruct flush]; simpl;
      rewrite ?call_attached by exact H; reflexivity.
Qed.

Lemma list_runs_plan self filters loads order_by offset limit w :
  attached self = true →
  DBStorage.list_ self filters loads order_by offset limit w
  = (Return
       (query_all
          (foldl refine (base_query self w)
             (plan filters loads order_by offset limit))), w).
Proof.
  intros H. unfold DBStorage.list_, mbind, St_bind.
  rewrite query_attached by exact H. unfold plan.
  destruct (seq_truthy filters), (seq_truthy loads), (seq_truthy order_by),
    (int_truthy offset), (int_truthy limit); reflexivity.
Qed.

Lemma count_runs_plan self filters w :
  attached self = true →
  DBStorage.count self filters w
  = (Return
       (query_count
          (foldl refine (base_query self w)
             (plan filters None None None None))), w).
Proof.
  intros H. unfold DBStorage.count, mbind, St_bind.
  rewrite query_attached by exact H. unfold plan.
  destruct (seq_truthy filters); reflexivity.
Qed.

Lemma seq_truthy_given {A} (arg : option (list A)) :
  seq_truthy arg = true → arg = Some (seq_of arg).
Proof. destruct arg as [[|x l]|]; simpl; intros E; by try discriminate E. Qed.

Lemma int_truthy_given (arg : option Z) :
  int_truthy arg = true → arg = Some (int_of arg).
Proof. destruct arg; simpl; intros E; by try discriminate E. Qed.

Lemma plan_in_order filters loads order_by offset limit :
  StronglySorted (λ a b, (rank a < rank b)%nat)
    (plan filters loads order_by offset limit).
Proof.
  unfold plan.
  destruct (seq_truthy filters), (seq_truthy loads), (seq_truthy order_by),
    (int_truthy offset), (int_truthy limit); simpl;
    repeat (constructor; [| repeat constructor; simpl; lia]);
    constructor.
Qed.

Lemma plan_given filters loads order_by offset limit r :
  r ∈ plan filters loads order_by offset limit →
  given filters loads order_by offset limit r.
Proof.
  unfold plan. rewrite !elem_of_app. intros Hr.
  pose proof (seq_truthy_given filters) as Hf.
  pose proof (seq_truthy_given loads) as Hl.
  pose proof (seq_truthy_given order_by) as Hs.
  pose proof (int_truthy_given offset) as Ho.
  pose proof (int_truthy_given limit) as Hn.
  destruct (seq_truthy filters), (seq_truthy loads), (seq_truthy order_by),
    (int_truthy offset), (int_truthy limit);
    repeat match goal with
      | H : _ ∨ _ |- _ => destruct H
      | H : _ ∈ [] |- _ => by apply elem_of_nil in H
      | H : _ ∈ [_] |- _ => apply list_elem_of_singleton in H; subst r
      end; simpl; auto.
Qed.

(** C3.  [list] returns [Query.all] of the session's query for the model
    after the refinements of [plan] have been applied to it from left to
    right.  The plan lists them in the order filters, loads, ordering,
    offset, limit; every refinement in it carries the value of the argument
    it stands for, so an argument that is absent contributes none; and with
    every argument absent the query is left as it is. *)
Theorem list_refines_in_fixed_order
    self filters loads order_by offset limit w :
  attached self = true →
  DBStorage.list_ self filters loads order_by offset limit w
  = (Return
       (query_all
          (foldl refine (base_query self w)
             (plan filters loads order_by offset limit))), w)
  ∧ StronglySorted (λ a b, (rank a < rank b)%nat)
      (plan filters loads order_by offset limit)
  ∧ (∀ r, r ∈ plan filters loads order_by offset limit →
       given filters loads order_by offset limit r)
  ∧ DBStorage.list_ self None None None None None w
    = (Return (query_all (base_query self w)), w).
Proof.
  intros H. split; [by apply list_runs_plan|].
  split; [apply plan_in_order|].
  split; [intros r; apply plan_given|].
  by rewrite list_runs_plan.
Qed.

(** C4, as the code has it.  [count(filters=F)] is [Query.count] of the
    very query whose [Query.all] is [list(filters=F)]: the session's query
    for the model, refined by the filters when [F] is true and by nothing
    else, since [count] takes no load, sort, offset or limit argument.
    Whether the number is the length of the list is the engine's affair:
    it is, whenever [Query.count] of that query counts the rows that
    [Query.all] of it returns. *)
Theorem count_counts_the_query_list_returns self filters w :
  attached self = true →
  let q := foldl refine (base_query self w)
             (if seq_truthy filters then [Filters (seq_of filters)]
              else []) in
  DBStorage.count self filters w = (Return (query_count q), w)
  ∧ DBStorage.list_ self filters None None None None w
    = (Return (query_all q), w)
  ∧ (query_count q = Z.of_nat (length (query_all q)) →
     ∃ n xs,
       DBStorage.count self filters w = (Return n, w)
       ∧ DBStorage.list_ self filters None None None None w
         = (Return xs, w)
       ∧ n = Z.of_nat (length xs)).
Proof.
  intros H q.
  assert (plan filters None None None None
          = if seq_truthy filters then [Filters (seq_of filters)] else [])
    as Hplan by (unfold plan; simpl; by rewrite app_nil_r).
  assert (DBStorage.count self filters w = (Return (query_count q), w))
    as Hcount by (rewrite count_runs_plan by exact H; by rewrite Hplan).
  assert (DBStorage.list_ self filters None None None None w
          = (Return (query_all q), w))
    as Hlist by (rewrite list_runs_plan by exact H; by rewrite Hplan).
  split; [exact Hcount|]. split; [exact Hlist|].
  intros Hagree. by exists (query_count q), (query_all q).
Qed.

Lemma plan_without_false_limit filters loads order_by offset n :
  Limit n ∉ plan filters loads order_by offset (Some 0).
Proof.
  intros Hin.
  change (plan filters loads order_by offset (Some 0))
    with (plan filters loads order_by offset None) in Hin.
  apply plan_given in Hin. discriminate Hin.
Qed.

Lemma plan_without_false_offset filters loads order_by limit n :
  Offset n ∉ plan filters loads order_by (Some 0) limit.
Proof.
  intros Hin.
  change (plan filters loads order_by (Some 0) limit)
    with (plan filters loads order_by None limit) in Hin.
  apply plan_given in Hin. discriminate Hin.
Qed.

(** C9.  A false argument disables its step just as an absent one does.
    [list] and [count] are the same computations when every false argument
    ([0], the empty sequence) is replaced by [None].  On a storage with a
    session, [list] with [limit=0] returns [Query.all] of the query refined
    by the other arguments, with no limit step in it, and so every row that
    query matches and not an empty sequence; [offset=0] likewise applies no
    offset; empty [filters], [loads] and [order_by] apply no filter, load
    or sort; and [count] with empty filters counts the unrefined query. *)
Theorem false_arguments_disable_steps
    self filters loads order_by offset limit :
  DBStorage.list_ self filters loads order_by offset limit
  = DBStorage.list_ self (seq_given filters) (seq_given loads)
      (seq_given order_by) (int_given offset) (int_given limit)
  ∧ DBStorage.count self filters = DBStorage.count self (seq_given filters)
  ∧ DBStorage.list_ self filters loads order_by offset (Some 0)
    = DBStorage.list_ self filters loads order_by offset None
  ∧ DBStorage.list_ self filters loads order_by (Some 0) limit
    = DBStorage.list_ self filters loads order_by None limit
  ∧ DBStorage.list_ self (Some []) loads order_by offset limit
    = DBStorage.list_ self None loads order_by offset limit
  ∧ DBStorage.list_ self filters (Some []) order_by offset limit
    = DBStorage.list_ self filters None order_by offset limit
  ∧ DBStorage.list_ self filters loads (Some []) offset limit
    = DBStorage.list_ self filters loads None offset limit
  ∧ DBStorage.count self (Some []) = DBStorage.count self None
  ∧ (∀ n, Limit n ∉ plan filters loads order_by offset (Some 0))
  ∧ (∀ n, Offset n ∉ plan filters loads order_by (Some 0) limit)
  ∧ (∀ w, attached self = true →
       DBStorage.list_ self filters loads order_by offset (Some 0) w
       = (Return
            (query_all
               (foldl refine (base_query self w)
                  (plan filters loads order_by offset None))), w)
       ∧ DBStorage.list_ self filters loads order_by (Some 0) limit w
         = (Return
              (query_all
                 (foldl refine (base_query self w)
                    (plan filters loads order_by None limit))), w)
       ∧ DBStorage.list_ self (Some []) loads order_by offset limit w
         = (Return
              (query_all
                 (foldl refine (base_query self w)
                    (plan None loads order_by offset limit))), w)
       ∧ DBStorage.list_ self filters (Some []) order_by offset limit w
         = (Return
              (query_all
                 (foldl refine (base_query self w)
                    (plan filters None order_by offset limit))), w)
       ∧ DBStorage.list_ self filters loads (Some []) offset limit w
         = (Return
              (query_all
                 (foldl refine (base_query self w)
                    (plan filters loads None offset limit))), w)
       ∧ DBStorage.list_ self None None None None (Some 0) w
         = (Return (query_all (base_query self w)), w)
       ∧ DBStorage.list_ self (Some []) (Some []) (Some []) (Some 0)
           (Some 0) w
         = (Return (query_all (base_query self w)), w)
       ∧ DBStorage.count self (Some []) w
         = (Return (query_count (base_query self w)), w)).
Proof.
  split.
  { unfold DBStorage.list_, seq_given, int_given.
    destruct (seq_truthy filters) eqn:Ef, (seq_truthy loads) eqn:El,
      (seq_truthy order_by) eqn:Es, (int_truthy offset) eqn:Eo,
      (int_truthy limit) eqn:En;
      rewrite ?Ef, ?El, ?Es, ?Eo, ?En; reflexivity. }
  split.
  { unfold DBStorage.count, seq_given.
    destruct (seq_truthy filters) eqn:Ef; rewrite ?Ef; reflexivity. }
  do 6 (split; [reflexivity|]).
  split; [intros n; apply plan_without_false_limit|].
  split; [intros n; apply plan_without_false_offset|].
  intros w H.
  repeat split; try (by rewrite list_runs_plan).
  by rewrite count_runs_plan.
Qed.


Lemma plan_pagination_last filters loads order_by offset limit :
  plan filters loads order_by offset limit
  = plan filters loads order_by None None
    ++ (if int_truthy offset then [Offset (int_of offset)] else [])
    ++ (if int_truthy limit then [Limit (int_of limit)] else []).
Proof.
  unfold plan. simpl. rewrite !app_nil_r. by rewrite <- !app_assoc.
Qed.


End StorageFacts.

(** ** The in-memory ORM meets the contracts, and runs the methods *)

Lemma Mem_count_agrees : @count_agrees Mem.orm.
Proof. intros q. simpl. by rewrite length_fmap. Qed.

Lemma Mem_paginates (q : Mem.query) :
  Mem.q_offset q = None → Mem.q_limit q = None → @paginates Mem.orm q.
Proof.
  intros Hoff Hlim o l _ _. simpl. unfold Mem.select. simpl.
  rewrite Hoff, Hlim. simpl.
  by rewrite ?fmap_take, ?fmap_drop.
Qed.

Lemma missing_key_raises_NotFound_witness :
  attached Mem.storage = true
  ∧ unresolved Mem.storage (PyInt 7) Mem.three
  ∧ (DBStorage.get Mem.storage (PyInt 7) Mem.three).1
    = Raise (NotFound "Widget with ID 7 does not exist")
  ∧ (DBStorage.update Mem.storage (PyInt 7) [("name", PyStr "z")]
       true true Mem.three).1
    = Raise (NotFound "Widget with ID 7 does not exist")
  ∧ (DBStorage.delete Mem.storage (PyInt 7) true true Mem.three).1
    = Raise (NotFound "Widget with ID 7 does not exist")
  ∧ occurs_in "Widget" "Widget with ID 7 does not exist"
  ∧ occurs_in "7" "Widget with ID 7 does not exist".
Proof.
  assert (Ha : attached Mem.storage = true) by reflexivity.
  assert (Hu : unresolved Mem.storage (PyInt 7) Mem.three)
    by (vm_compute; reflexivity).
  exact (conj Ha (conj Hu
    (missing_key_raises_NotFound Mem.storage (PyInt 7)
       [("name", PyStr "z")] true true Mem.three Ha Hu))).
Defined.


Lemma mutations_follow_durability_policy_witness :
  attached Mem.storage = true
  ∧ resolves Mem.storage (PyInt 2) Mem.three 1%nat
  ∧ DBStorage.update Mem.storage (PyInt 2) [("name", PyStr "z")]
      false true Mem.three
    = (Return 1%nat,
       settle (Some Commit) (Some 1%nat)
         (DBStorage.setattrs 1%nat [("name", PyStr "z")] Mem.three))
  ∧ DBStorage.delete Mem.storage (PyInt 2) false true Mem.three
    = (Return tt,
       settle (Some Commit) None (session_delete 1%nat Mem.three)).
Proof.
  assert (Ha : attached Mem.storage = true) by reflexivity.
  assert (Hr : resolves Mem.storage (PyInt 2) Mem.three 1%nat)
    by (vm_compute; reflexivity).
  destruct (mutations_follow_durability_policy (O := Mem.orm) Mem.storage
              false true Mem.three Ha) as (_ & Hupdate & Hdelete & _).
  exact (conj Ha (conj Hr
    (conj (Hupdate (PyInt 2) [("name", PyStr "z")] 1%nat Hr)
          (Hdelete (PyInt 2) 1%nat Hr)))).
Defined.

Lemma list_refines_in_fixed_order_witness :
  attached Mem.storage = true
  ∧ DBStorage.list_ Mem.storage from_second None by_name (Some 1) (Some 5)
      Mem.three
    = (Return
         (query_all
            (foldl refine (base_query Mem.storage Mem.three)
               [Filters (seq_of from_second); Sort (seq_of by_name);
                Offset 1; Limit 5])), Mem.three).
Proof.
  assert (Ha : attached Mem.storage = true) by reflexivity.
  exact (conj Ha
    (proj1 (list_refines_in_fixed_order Mem.storage from_second None
              by_name (Some 1) (Some 5) Mem.three Ha))).
Defined.

Lemma count_counts_the_query_list_returns_witness :
  attached Mem.storage = true
  ∧ DBStorage.count Mem.storage from_second Mem.three
    = (Return
         (query_count
            (foldl refine (base_query Mem.storage Mem.three)
               [Filters (seq_of from_second)])), Mem.three)
  ∧ DBStorage.list_ Mem.storage from_second None None None None Mem.three
    = (Return
         (query_all
            (foldl refine (base_query Mem.storage Mem.three)
               [Filters (seq_of from_second)])), Mem.three)
  ∧ ∃ n xs,
      DBStorage.count Mem.storage from_second Mem.three
      = (Return n, Mem.three)
      ∧ DBStorage.list_ Mem.storage from_second None None None None
          Mem.three = (Return xs, Mem.three)
      ∧ n = Z.of_nat (length xs).
Proof.
  assert (Ha : attached Mem.storage = true) by reflexivity.
  destruct (count_counts_the_query_list_returns (O := Mem.orm) Mem.storage
              from_second Mem.three Ha) as (Hcount & Hlist & Hlength).
  exact (conj Ha (conj Hcount (conj Hlist
    (Hlength (Mem_count_agrees _))))).
Defined.

(** C4, as the specification states it, fails on an engine that selects a
    widget once for each part that matches the filter: of the two widgets,
    the first has two bolts, so [count(filters=F)] is [2], while
    [list(filters=F)] holds that one widget once. *)
Lemma count_is_not_the_length_over_a_join :
  DBStorage.count (O := Joined.orm) Mem.storage Joined.with_a_bolt Joined.db
  = (Return 2, Joined.db)
  ∧ DBStorage.list_ (O := Joined.orm) Mem.storage Joined.with_a_bolt
      None None None None Joined.db
    = (Return [1], Joined.db)
  ∧ (2 : Z) ≠ Z.of_nat (length [1 : Z]).
Proof.
  split; [vm_compute; reflexivity|].
  split; [vm_compute; reflexivity|].
  discriminate.
Qed.



(** With neither flag a mutation stays in the unit of work: the row is
    still in the table and the instance is registered for removal. *)
Example pending_delete_stays_pending :
  let w := Mem.after (DBStorage.delete Mem.storage (PyInt 2) false false)
             Mem.three in
  Mem.removed w = [1%nat] ∧ fst <$> Mem.rows w = [0; 1; 2]%nat
  ∧ Mem.durable w = Mem.durable Mem.three.
Proof. vm_compute. repeat split. Qed.

(** With [limit=0] every row comes back. *)
Example limit_zero_returns_every_row :
  Mem.result (DBStorage.list_ Mem.storage None None None None (Some 0))
    Mem.three = Return [0; 1; 2]%nat.
Proof. vm_compute. reflexivity. Qed.

Lemma false_arguments_disable_steps_witness :
  attached Mem.storage = true
  ∧ DBStorage.list_ Mem.storage from_second None by_name None (Some 0)
      Mem.three
    = (Return
         (query_all
            (foldl refine (base_query Mem.storage Mem.three)
               (plan from_second None by_name None None))), Mem.three)
  ∧ DBStorage.list_ Mem.storage None None None None (Some 0) Mem.three
    = (Return (query_all (base_query Mem.storage Mem.three)), Mem.three)
  ∧ query_all (base_query Mem.storage Mem.three) = [0; 1; 2]%nat.
Proof.
  assert (Ha : attached Mem.storage = true) by reflexivity.
  destruct (false_arguments_disable_steps (O := Mem.orm) Mem.storage
              from_second None by_name None None)
    as (_ & _ & _ & _ & _ & _ & _ & _ & _ & _ & Hrun).
  destruct (Hrun Mem.three Ha) as (Hzero & _ & _ & _ & _ & Hall & _).
  refine (conj Ha (conj Hzero (conj Hall _))).
  vm_compute. reflexivity.
Defined.

(** ** Facts about the binding component *)

Section BindFacts.
Implicit Types (cls : gmap string pyval) (n attr : string).
Implicit Types (item : string * option string).
Implicit Types (items : list (string * option string)).

Lemma class_getattr_lookup cls cls' n :
  cls' !! n = cls !! n →
  AutoCrud.class_getattr cls' n = AutoCrud.class_getattr cls n.
Proof. unfold AutoCrud.class_getattr. by intros ->. Qed.

Lemma name_truthy_Some rpc_name :
  name_truthy rpc_name = true →
  rpc_name = Some (default "" rpc_name) ∧ default "" rpc_name ≠ "".
Proof.
  destruct rpc_name as [s|]; simpl; [|discriminate].
  unfold name_truthy. simpl. intros E. split; [done|].
  intros ->. discriminate E.
Qed.

(** One pass of the loop leaves every true attribute as it is. *)
Lemma bind_method_keeps attr cls item n :
  truthy (AutoCrud.class_getattr cls n) = true →
  AutoCrud.bind_method attr cls item !! n = cls !! n.
Proof.
  intros Hn. destruct item as [fn rpc_name]. unfold AutoCrud.bind_method.
  destruct (name_truthy rpc_name); simpl; [|done].
  destruct (truthy (AutoCrud.class_getattr cls (default "" rpc_name)))
    eqn:Ht; simpl; [done|].
  apply lookup_insert_ne. intros E. rewrite E in Ht. congruence.
Qed.

(** One pass of the loop changes a name only by filling it. *)
Lemma bind_method_changes attr cls fn rpc_name n :
  AutoCrud.bind_method attr cls (fn, rpc_name) !! n ≠ cls !! n →
  rpc_name = Some n ∧ n ≠ ""
  ∧ truthy (AutoCrud.class_getattr cls n) = false
  ∧ AutoCrud.bind_method attr cls (fn, rpc_name) !! n
    = Some (PyManagerFn attr fn).
Proof.
  unfold AutoCrud.bind_method.
  destruct (name_truthy rpc_name) eqn:Hname; simpl; [|done].
  destruct (name_truthy_Some rpc_name Hname) as [Hsome Hne].
  destruct (truthy (AutoCrud.class_getattr cls (default "" rpc_name)))
    eqn:Ht; simpl; [done|].
  destruct (decide (default "" rpc_name = n)) as [<-|Hother].
  - intros _. by rewrite lookup_insert_eq.
  - rewrite lookup_insert_ne by done. done.
Qed.

Lemma bind_loop_keeps attr items cls n :
  truthy (AutoCrud.class_getattr cls n) = true →
  foldl (AutoCrud.bind_method attr) cls items !! n = cls !! n.
Proof.
  revert cls. induction items as [|item items IH]; intros cls Hn; [done|].
  cbn [foldl]. pose proof (bind_method_keeps attr cls item n Hn) as Hstep.
  rewrite IH; [done|].
  by rewrite (class_getattr_lookup _ _ _ Hstep).
Qed.

Lemma bind_loop_changes attr items cls n :
  foldl (AutoCrud.bind_method attr) cls items !! n ≠ cls !! n →
  truthy (AutoCrud.class_getattr cls n) = false ∧ n ≠ ""
  ∧ ∃ fn, (fn, Some n) ∈ items
          ∧ foldl (AutoCrud.bind_method attr) cls items !! n
            = Some (PyManagerFn attr fn).
Proof.
  revert cls. induction items as [|[fn rpc_name] items IH]; intros cls;
    [done|].
  cbn [foldl]. intros Hne.
  destruct (decide (AutoCrud.bind_method attr cls (fn, rpc_name) !! n
                    = cls !! n)) as [Hsame|Hstep].
  - destruct (IH (AutoCrud.bind_method attr cls (fn, rpc_name)))
      as (Ht & Hn & fn' & Hin & Hfinal); [congruence|].
    rewrite (class_getattr_lookup _ _ _ Hsame) in Ht.
    split; [done|]. split; [done|].
    exists fn'. split; [by apply list_elem_of_further | done].
  - destruct (bind_method_changes attr cls fn rpc_name n Hstep)
      as (-> & Hn & Ht & Hset).
    split; [done|]. split; [done|].
    exists fn. split; [by apply list_elem_of_here|].
    rewrite bind_loop_keeps; [done|].
    unfold AutoCrud.class_getattr. by rewrite Hset.
Qed.

(** After the loop every name that is wanted holds a true value. *)
Lemma bind_loop_saturates attr items cls fn rpc_name :
  (fn, rpc_name) ∈ items → name_truthy rpc_name = true →
  truthy (AutoCrud.class_getattr
            (foldl (AutoCrud.bind_method attr) cls items)
            (default "" rpc_name)) = true.
Proof.
  revert cls. induction items as [|item items IH]; intros cls Hin Hname.
  - by apply elem_of_nil in Hin.
  - apply elem_of_cons in Hin as [<-|Hin]; [|by apply IH].
    cbn [foldl].
    assert (truthy (AutoCrud.class_getattr
                      (AutoCrud.bind_method attr cls (fn, rpc_name))
                      (default "" rpc_name)) = true) as Hstep.
    { unfold AutoCrud.bind_method. rewrite Hname. simpl.
      destruct (truthy (AutoCrud.class_getattr cls (default "" rpc_name)))
        eqn:Ht; simpl; [done|].
      unfold AutoCrud.class_getattr. by rewrite lookup_insert_eq. }
    rewrite (class_getattr_lookup _ _ _
               (bind_loop_keeps attr items _ _ Hstep)).
    done.
Qed.

(** A class in which every wanted name is true passes through the loop
    unchanged. *)
Lemma bind_loop_fixpoint attr items cls :
  (∀ fn rpc_name, (fn, rpc_name) ∈ items → name_truthy rpc_name = true →
     truthy (AutoCrud.class_getattr cls (default "" rpc_name)) = true) →
  foldl (AutoCrud.bind_method attr) cls items = cls.
Proof.
  induction items as [|[fn rpc_name] items IH]; intros Hall; [done|].
  cbn [foldl].
  assert (AutoCrud.bind_method attr cls (fn, rpc_name) = cls) as ->.
  { unfold AutoCrud.bind_method.
    destruct (name_truthy rpc_name) eqn:Hname; simpl; [|done].
    rewrite (Hall fn rpc_name); [done | apply list_elem_of_here | done]. }
  apply IH. intros fn' rpc' Hin. apply (Hall fn').
  by apply list_elem_of_further.
Qed.

Lemma bind_loop_idempotent attr items cls :
  foldl (AutoCrud.bind_method attr)
    (foldl (AutoCrud.bind_method attr) cls items) items
  = foldl (AutoCrud.bind_method attr) cls items.
Proof.
  apply bind_loop_fixpoint. intros fn rpc_name Hin Hname.
  by apply bind_loop_saturates with fn.
Qed.

Lemma bind_loop_attaches attr items cls fn n :
  (fn, Some n) ∈ items → n ≠ "" →
  truthy (AutoCrud.class_getattr cls n) = false →
  (∀ fn', (fn', Some n) ∈ items → fn' = fn) →
  foldl (AutoCrud.bind_method attr) cls items !! n
  = Some (PyManagerFn attr fn).
Proof.
  intros Hin Hn Hfalse Huniq.
  assert (name_truthy (Some n) = true) as Hname.
  { unfold name_truthy. simpl. destruct (String.eqb_spec n ""); done. }
  pose proof (bind_loop_saturates attr items cls fn (Some n) Hin Hname)
    as Hsat. simpl in Hsat.
  destruct (bind_loop_changes attr items cls n)
    as (_ & _ & fn' & Hin' & Hfinal).
  { intros Heq. rewrite (class_getattr_lookup _ _ _ Heq) in Hsat.
    congruence. }
  by rewrite Hfinal, (Huniq fn' Hin').
Qed.

(** C6, as the code has it.  [bind] fills a resolved name only when the
    class has no true attribute under it: an attribute that is absent, or
    present with a false value such as [None], is replaced by the
    synthesized method, and an attribute with a true value (every
    user-defined method is one) is never replaced.  Whatever [bind] changes
    is a non-empty resolved name, now holding the synthesized method of one
    of its operations.  A second [bind] changes nothing.  An operation whose
    name is non-empty, resolved for no other operation and not yet true on
    the class gets exactly its own synthesized method. *)
Theorem bind_fills_only_false_names (self : AutoCrud.t) cls attr :
  let cls' := (AutoCrud.bind self cls attr).2 in
  (∀ n, truthy (AutoCrud.class_getattr cls n) = true →
     cls' !! n = cls !! n)
  ∧ (∀ n, cls' !! n ≠ cls !! n →
       truthy (AutoCrud.class_getattr cls n) = false ∧ n ≠ ""
       ∧ ∃ fn, (fn, Some n) ∈ AutoCrud.method_names self
               ∧ cls' !! n = Some (PyManagerFn attr fn))
  ∧ (AutoCrud.bind self cls' attr).2 = cls'
  ∧ (AutoCrud.bind (AutoCrud.bind self cls attr).1 cls' attr).2 = cls'
  ∧ (∀ fn n, (fn, Some n) ∈ AutoCrud.method_names self → n ≠ "" →
       truthy (AutoCrud.class_getattr cls n) = false →
       (∀ fn', (fn', Some n) ∈ AutoCrud.method_names self → fn' = fn) →
       cls' !! n = Some (PyManagerFn attr fn)).
Proof.
  simpl. split; [intros n; apply bind_loop_keeps|].
  split; [intros n; apply bind_loop_changes|].
  split; [apply bind_loop_idempotent|].
  split; [apply bind_loop_idempotent|].
  intros fn n. apply bind_loop_attaches.
Qed.

End BindFacts.

Lemma widget_crud_names :
  AutoCrud.method_names widget_crud
  = [ ("get", Some "get_widget"); ("list", Some "list_widgets");
      ("page", Some "page_widgets"); ("count", Some "count_widgets");
      ("create", Some "create_widget"); ("update", Some "update_widget");
      ("delete", Some "delete_widget") ].
Proof. reflexivity. Qed.

Lemma bind_fills_only_false_names_witness :
  truthy (AutoCrud.class_getattr user_class "get_widget") = true
  ∧ (AutoCrud.bind widget_crud user_class "crud").2 !! "get_widget"
    = Some (PyFunction "Service.get_widget")
  ∧ truthy (AutoCrud.class_getattr user_class "list_widgets") = false
  ∧ (AutoCrud.bind widget_crud user_class "crud").2 !! "list_widgets"
    = Some (PyManagerFn "crud" "list").
Proof.
  assert (Hmine : truthy (AutoCrud.class_getattr user_class "get_widget")
                  = true) by reflexivity.
  assert (Hfree : truthy (AutoCrud.class_getattr user_class "list_widgets")
                  = false) by reflexivity.
  destruct (bind_fills_only_false_names widget_crud user_class "crud")
    as (Hkeep & _ & _ & _ & Hattach).
  refine (conj Hmine (conj _ (conj Hfree _))).
  - exact (Hkeep "get_widget" Hmine).
  - refine (Hattach "list" "list_widgets" _ _ Hfree _).
    + rewrite widget_crud_names.
      apply list_elem_of_further, list_elem_of_here.
    + discriminate.
    + intros fn'. rewrite widget_crud_names. intros Hin.
      repeat (apply elem_of_cons in Hin as [Hin|Hin]; [by inversion Hin|]).
      by apply elem_of_nil in Hin.
Defined.

(** C6, as the specification states it, fails on a class that already has
    an attribute of the resolved name with a false value: the attribute
    [get_widget = None] is present, and [bind] puts the synthesized method
    in its place. *)
Lemma bind_replaces_a_false_attribute :
  placeholder_class !! "get_widget" = Some PyNone
  ∧ (AutoCrud.bind widget_crud placeholder_class "crud").2 !! "get_widget"
    = Some (PyManagerFn "crud" "get").
Proof. split; vm_compute; reflexivity. Qed.

Section NameFacts.
Implicit Types (cls : gmap string pyval).

Lemma keyed_by_fst {A} (l : list (string * A)) k a b :
  NoDup l.*1 → (k, a) ∈ l → (k, b) ∈ l → a = b.
Proof.
  induction l as [|[k' c] l IH]; intros Hnd Ha Hb.
  - by apply elem_of_nil in Ha.
  - cbn [fmap list_fmap fst] in Hnd. apply NoDup_cons in Hnd as [Hk Hnd].
    apply elem_of_cons in Ha as [Ha|Ha], Hb as [Hb|Hb].
    + congruence.
    + injection Ha as -> ->. exfalso. apply Hk.
      apply list_elem_of_fmap. by exists (k', b).
    + injection Hb as -> ->. exfalso. apply Hk.
      apply list_elem_of_fmap. by exists (k', a).
    + by apply IH.
Qed.

(** The keys of [method_names] are the seven operations, each once. *)
Lemma init_names_keyed sp model en enp g l p c cr u d kw :
  NoDup (AutoCrud.method_names
           (AutoCrud.__init__ sp model en enp g l p c cr u d kw)).*1.
Proof.
  cbn [AutoCrud.__init__ AutoCrud.method_names fmap list_fmap fst].
  apply (bool_decide_unpack _). vm_compute. exact I.
Qed.

(** C7.  The resolved name of each of the seven operations is the name
    that was passed when one was passed (the sentinel [DEFAULT] aside), and
    otherwise the prefix of the operation followed by the entity name, in
    the plural for [list], [page] and [count].  For an operation whose
    resolved name is empty (or [None]) [bind] attaches nothing: a
    synthesized method of that operation is found on the class after
    [bind] only where it was before. *)
Theorem method_names_resolved sp model en enp g l p c cr u d kw :
  let self := AutoCrud.__init__ sp model en enp g l p c cr u d kw in
  let resolved (prefix : string) custom (entity : string) :=
    match custom with
    | AutoCrud.DEFAULT => Some (prefix +:+ entity)
    | AutoCrud.Custom name => name
    end in
  AutoCrud.method_names self
  = [ ("get", resolved "get_" g (AutoCrud.entity_name self));
      ("list", resolved "list_" l (AutoCrud.entity_name_plural self));
      ("page", resolved "page_" p (AutoCrud.entity_name_plural self));
      ("count", resolved "count_" c (AutoCrud.entity_name_plural self));
      ("create", resolved "create_" cr (AutoCrud.entity_name self));
      ("update", resolved "update_" u (AutoCrud.entity_name self));
      ("delete", resolved "delete_" d (AutoCrud.entity_name self)) ]
  ∧ name_truthy (Some "") = false
  ∧ (∀ cls attr op rpc_name,
       (op, rpc_name) ∈ AutoCrud.method_names self →
       name_truthy rpc_name = false →
       ∀ n, (AutoCrud.bind self cls attr).2 !! n
            = Some (PyManagerFn attr op) →
            cls !! n = Some (PyManagerFn attr op)).
Proof.
  intros self resolved. split; [reflexivity|]. split; [reflexivity|].
  intros cls attr op rpc_name Hin Hfalse n Hn.
  destruct (decide ((AutoCrud.bind self cls attr).2 !! n = cls !! n))
    as [Hsame|Hchanged]; [congruence|].
  destruct (bind_loop_changes attr (AutoCrud.method_names self) cls n
              Hchanged) as (_ & Hne & fn & Hin' & Hfinal).
  assert (fn = op) as -> by (cbn [AutoCrud.bind snd] in Hn; congruence).
  rewrite (keyed_by_fst _ op rpc_name (Some n)
             (init_names_keyed sp model en enp g l p c cr u d kw) Hin Hin')
    in Hfalse.
  unfold name_truthy in Hfalse. simpl in Hfalse.
  destruct (String.eqb_spec n ""); [done | discriminate Hfalse].
Qed.

Lemma custom_crud_names :
  AutoCrud.method_names custom_crud
  = [ ("get", Some "get_widget"); ("list", Some "all_widgets");
      ("page", Some ""); ("count", Some "count_widgets");
      ("create", Some "create_widget"); ("update", Some "update_widget");
      ("delete", Some "delete_widget") ].
Proof. reflexivity. Qed.

Lemma method_names_resolved_witness :
  ("page", Some "") ∈ AutoCrud.method_names custom_crud
  ∧ name_truthy (Some "") = false
  ∧ ∀ n, (AutoCrud.bind custom_crud ∅ "crud").2 !! n
         = Some (PyManagerFn "crud" "page") →
         (∅ : gmap string pyval) !! n = Some (PyManagerFn "crud" "page").
Proof.
  assert (Hin : ("page", Some "") ∈ AutoCrud.method_names custom_crud).
  { rewrite custom_crud_names.
    apply list_elem_of_further, list_elem_of_further, list_elem_of_here. }
  assert (Hfalse : name_truthy (Some "") = false) by reflexivity.
  destruct (method_names_resolved (AutoCrud.ProviderStr "db") Mem.Widget
              None None AutoCrud.DEFAULT
              (AutoCrud.Custom (Some "all_widgets"))
              (AutoCrud.Custom (Some "")) AutoCrud.DEFAULT AutoCrud.DEFAULT
              AutoCrud.DEFAULT AutoCrud.DEFAULT [])
    as (_ & _ & Hquiet).
  exact (conj Hin (conj Hfalse
    (Hquiet ∅ "crud" "page" (Some "") Hin Hfalse))).
Defined.

End NameFacts.

(** ** Facts about the accessors and the worker setup *)

Section AccessorFacts.
Implicit Types (service : AutoCrud.Service) (self : AutoCrud.t).

Lemma getattr_present service name v :
  AutoCrud.attrs service !! name = Some v →
  AutoCrud.getattr name service = (Return v, service).
Proof. unfold AutoCrud.getattr. by intros ->. Qed.

(** What [worker_setup] leaves when the session is [session] and the
    storage [st] sits under the identity [id]. *)
Lemma worker_setup_attaches self service attr session service' id st :
  AutoCrud.attr_name self = Some attr →
  AutoCrud.session_accessor self service = (Return session, service') →
  AutoCrud.attrs service' !! attr = Some (PyObj id) →
  AutoCrud.storages service' !! id = Some st →
  AutoCrud.worker_setup self service
  = (Return tt,
     {| AutoCrud.attrs := AutoCrud.attrs service';
        AutoCrud.storages :=
          <[id := {| DBStorage.model_cls := DBStorage.model_cls st;
                     DBStorage.session := session |}]>
            (AutoCrud.storages service') |}).
Proof.
  intros Hattr Hacc Hget Hst.
  unfold AutoCrud.worker_setup, mbind, St_bind.
  rewrite Hacc, Hattr, (getattr_present _ _ _ Hget).
  unfold AutoCrud.set_session. by rewrite Hst.
Qed.



(** The accessor has run once when [worker_setup] is done, and the storage
    of the worker holds the session it returned. *)
Example worker_setup_resolves_once :
  let service' := (AutoCrud.worker_setup counting_crud worker_service).2 in
  AutoCrud.attrs service' !! "resolutions" = Some (PyInt 1)
  ∧ DBStorage.session <$> AutoCrud.storages service' !! 0%nat
    = Some (PyObj 7)
  ∧ DBStorage.session <$> AutoCrud.storages worker_service !! 0%nat
    = Some PyNone.
Proof. vm_compute. repeat split. Qed.

End AccessorFacts.

(** ** More about the storage facade *)

Section StorageMore.
Context {O : Orm}.
Implicit Types (self : DBStorage.t) (pk : pyval) (w : World).


Lemma the_session_unattached self name w :
  attached self = false →
  DBStorage.the_session self name w = (Raise (AttributeError name), w).
Proof.
  unfold attached, DBStorage.the_session.
  destruct (DBStorage.session self); intros H; try discriminate H;
    reflexivity.
Qed.

Lemma _get_unattached self pk w :
  attached self = false →
  DBStorage._get self pk w = (Raise (AttributeError "query"), w).
Proof.
  intros H. unfold DBStorage._get, DBStorage.query, mbind, St_bind.
  by rewrite the_session_unattached.
Qed.

(** X2.  On a storage whose session was never attached every method fails
    with an [AttributeError].  The five methods that start from the query
    fail on [self.session.query] before anything is done; [create] has
    already built the instance when it fails on [self.session.add], and
    the instance is not added to anything. *)
Theorem unattached_storage_raises
    self pk data filters loads order_by offset limit flush commit w :
  attached self = false →
  DBStorage.get self pk w = (Raise (AttributeError "query"), w)
  ∧ DBStorage.list_ self filters loads order_by offset limit w
    = (Raise (AttributeError "query"), w)
  ∧ DBStorage.count self filters w = (Raise (AttributeError "query"), w)
  ∧ DBStorage.update self pk data flush commit w
    = (Raise (AttributeError "query"), w)
  ∧ DBStorage.delete self pk flush commit w
    = (Raise (AttributeError "query"), w)
  ∧ DBStorage.create self data flush commit w
    = (Raise (AttributeError "add"),
       (construct (DBStorage.model_cls self) data w).2).
Proof.
  intros H. pose proof (_get_unattached self pk w H) as Hget.
  repeat split.
  - exact Hget.
  - unfold DBStorage.list_, DBStorage.query, mbind, St_bind.
    by rewrite the_session_unattached.
  - unfold DBStorage.count, DBStorage.query, mbind, St_bind.
    by rewrite the_session_unattached.
  - unfold DBStorage.update, mbind, St_bind. by rewrite Hget.
  - unfold DBStorage.delete, mbind, St_bind. by rewrite Hget.
  - unfold DBStorage.create, DBStorage.call, mbind, St_bind, allocate.
    destruct (construct _ data w) as [obj w1].
    by rewrite the_session_unattached.
Qed.

(** X3.  An [update] with no data and neither flag is a [get]: it assigns
    nothing, flushes and commits nothing, and returns or raises what [get]
    does. *)
Theorem update_with_nothing_is_get self pk w :
  DBStorage.update self pk [] false false w = DBStorage.get self pk w.
Proof.
  unfold DBStorage.update, DBStorage.get, mbind, St_bind.
  destruct (DBStorage._get self pk w) as [[obj|e] w']; reflexivity.
Qed.



(** The page [list] returns for a non-negative offset and a positive
    limit, on an engine that paginates the query. *)
Lemma list_page self filters loads order_by o l w :
  attached self = true →
  paginates
    (foldl refine (base_query self w)
       (plan filters loads order_by None None)) →
  0 ≤ o → 0 < l →
  DBStorage.list_ self filters loads order_by (Some o) (Some l) w
  = (Return
       (take (Z.to_nat l)
          (drop (Z.to_nat o)
             (query_all
                (foldl refine (base_query self w)
                   (plan filters loads order_by None None))))), w).
Proof.
  intros H Hq Ho Hl. rewrite list_runs_plan by exact H.
  rewrite (plan_pagination_last _ _ _ (Some o) (Some l)).
  rewrite !foldl_app.
  destruct (Hq o l Ho ltac:(lia)) as (_ & Hlim & Hboth).
  simpl. destruct (Z.eqb_spec l 0) as [?|_]; [lia|]. simpl.
  destruct (Z.eqb_spec o 0) as [->|_]; simpl.
  - by rewrite Hlim.
  - by rewrite Hboth.
Qed.

(** X5.  Consecutive pages join up: on an engine that paginates the query,
    the page of [l1] rows at offset [o] followed by the page of [l2] rows
    at offset [o + l1] is the page of [l1 + l2] rows at offset [o]. *)
Theorem consecutive_pages_join self filters loads order_by o l1 l2 w :
  attached self = true →
  paginates
    (foldl refine (base_query self w)
       (plan filters loads order_by None None)) →
  0 ≤ o → 0 < l1 → 0 < l2 →
  ∃ first second both,
    DBStorage.list_ self filters loads order_by (Some o) (Some l1) w
    = (Return first, w)
    ∧ DBStorage.list_ self filters loads order_by (Some (o + l1)) (Some l2) w
      = (Return second, w)
    ∧ DBStorage.list_ self filters loads order_by (Some o) (Some (l1 + l2)) w
      = (Return both, w)
    ∧ first ++ second = both.
Proof.
  intros H Hq Ho Hl1 Hl2. eexists _, _, _.
  split; [by apply list_page|].
  split; [apply list_page; [done | done | lia | done]|].
  split; [apply list_page; [done | done | done | lia]|].
  replace (Z.to_nat (o + l1)) with (Z.to_nat o + Z.to_nat l1)%nat by lia.
  replace (Z.to_nat (l1 + l2)) with (Z.to_nat l1 + Z.to_nat l2)%nat by lia.
  rewrite <- drop_drop. apply take_take_drop.
Qed.

(** X6.  On an engine that paginates the query, a page asked for with a
    positive limit has at most that many rows, holds only rows of the
    unpaged list in the order they have there, and is empty when the
    offset is at or past the end of the unpaged list. *)
Theorem page_is_bounded self filters loads order_by o l w :
  attached self = true →
  paginates
    (foldl refine (base_query self w)
       (plan filters loads order_by None None)) →
  0 ≤ o → 0 < l →
  ∃ page rows,
    DBStorage.list_ self filters loads order_by (Some o) (Some l) w
    = (Return page, w)
    ∧ DBStorage.list_ self filters loads order_by None None w
      = (Return rows, w)
    ∧ Z.of_nat (length page) ≤ l
    ∧ page `sublist_of` rows
    ∧ (Z.of_nat (length rows) ≤ o → page = []).
Proof.
  intros H Hq Ho Hl. eexists _, _.
  split; [by apply list_page|].
  split; [by apply list_runs_plan|].
  split; [rewrite length_take; lia|].
  split.
  - etrans; [apply sublist_take | apply sublist_drop].
  - intros Hend. rewrite drop_ge by lia. apply take_nil.
Qed.

End StorageMore.

Lemma unattached_storage_raises_witness :
  attached (AutoCrud.get_dependency widget_crud) = false
  ∧ DBStorage.get (AutoCrud.get_dependency widget_crud) (PyInt 1) Mem.three
    = (Raise (AttributeError "query"), Mem.three)
  ∧ DBStorage.create (AutoCrud.get_dependency widget_crud)
      [("name", PyStr "d")] true true Mem.three
    = (Raise (AttributeError "add"),
       (construct Mem.Widget [("name", PyStr "d")] Mem.three).2).
Proof.
  assert (Hn : attached (AutoCrud.get_dependency widget_crud) = false)
    by reflexivity.
  destruct (unattached_storage_raises (O := Mem.orm)
              (AutoCrud.get_dependency widget_crud) (PyInt 1)
              [("name", PyStr "d")] None None None None None true true
              Mem.three Hn) as (Hget & _ & _ & _ & _ & Hcreate).
  exact (conj Hn (conj Hget Hcreate)).
Defined.


Lemma consecutive_pages_join_witness :
  attached Mem.storage = true
  ∧ paginates
      (foldl refine (base_query Mem.storage Mem.three)
         (plan None None by_name None None))
  ∧ 0 ≤ 0 ∧ 0 < 1 ∧ 0 < 2
  ∧ ∃ first second both,
      DBStorage.list_ Mem.storage None None by_name (Some 0) (Some 1)
        Mem.three = (Return first, Mem.three)
      ∧ DBStorage.list_ Mem.storage None None by_name (Some (0 + 1)) (Some 2)
          Mem.three = (Return second, Mem.three)
      ∧ DBStorage.list_ Mem.storage None None by_name (Some 0)
          (Some (1 + 2)) Mem.three = (Return both, Mem.three)
      ∧ first ++ second = both.
Proof.
  assert (Ha : attached Mem.storage = true) by reflexivity.
  assert (Hp : paginates
                 (foldl refine (base_query Mem.storage Mem.three)
                    (plan None None by_name None None)))
    by (apply Mem_paginates; reflexivity).
  assert (H0 : 0 ≤ 0) by lia.
  assert (H1 : 0 < 1) by lia.
  assert (H2 : 0 < 2) by lia.
  exact (conj Ha (conj Hp (conj H0 (conj H1 (conj H2
    (consecutive_pages_join Mem.storage None None by_name 0 1 2 Mem.three
       Ha Hp H0 H1 H2)))))).
Defined.

Lemma page_is_bounded_witness :
  attached Mem.storage = true
  ∧ paginates
      (foldl refine (base_query Mem.storage Mem.three)
         (plan None None by_name None None))
  ∧ 0 ≤ 2 ∧ 0 < 5
  ∧ ∃ page rows,
      DBStorage.list_ Mem.storage None None by_name (Some 2) (Some 5)
        Mem.three = (Return page, Mem.three)
      ∧ DBStorage.list_ Mem.storage None None by_name None None Mem.three
        = (Return rows, Mem.three)
      ∧ Z.of_nat (length page) ≤ 5
      ∧ page `sublist_of` rows
      ∧ (Z.of_nat (length rows) ≤ 2 → page = []).
Proof.
  assert (Ha : attached Mem.storage = true) by reflexivity.
  assert (Hp : paginates
                 (foldl refine (base_query Mem.storage Mem.three)
                    (plan None None by_name None None)))
    by (apply Mem_paginates; reflexivity).
  assert (H0 : 0 ≤ 2) by lia.
  assert (H1 : 0 < 5) by lia.
  exact (conj Ha (conj Hp (conj H0 (conj H1
    (page_is_bounded Mem.storage None None by_name 2 5 Mem.three
       Ha Hp H0 H1))))).
Defined.

Lemma append_length (a b : string) :
  String.length (a +:+ b) = (String.length a + String.length b)%nat.
Proof.
  induction a as [|x a IH]; [reflexivity|].
  change (S (String.length (a +:+ b))
          = S (String.length a + String.length b)).
  by rewrite IH.
Qed.

Lemma append_cancel_r (a b c : string) : a +:+ c = b +:+ c → a = b.
Proof.
  revert b. induction a as [|x a IH]; intros [|y b] E.
  - reflexivity.
  - apply (f_equal String.length) in E. rewrite !append_length in E.
    simpl in E. lia.
  - apply (f_equal String.length) in E. rewrite !append_length in E.
    simpl in E. lia.
  - change (String x (a +:+ c) = String y (b +:+ c)) in E.
    injection E as -> E. by rewrite (IH b E).
Qed.

(** X7.  The message of [NotFound] tells keys apart: for one model class,
    two keys whose [str] differ give different messages, and so do two
    different integer keys. *)
Theorem not_found_message_tells_keys_apart (self : DBStorage.t) :
  (∀ pk1 pk2, py_str pk1 ≠ py_str pk2 →
     DBStorage.not_found_message self pk1
     ≠ DBStorage.not_found_message self pk2)
  ∧ (∀ a b : Z, a ≠ b →
       DBStorage.not_found_message self (PyInt a)
       ≠ DBStorage.not_found_message self (PyInt b)).
Proof.
  assert (∀ pk1 pk2,
            DBStorage.not_found_message self pk1
            = DBStorage.not_found_message self pk2 →
            py_str pk1 = py_str pk2) as Hinj.
  { intros pk1 pk2 E. unfold DBStorage.not_found_message in E.
    apply String.app_inj in E. apply String.app_inj in E.
    by apply append_cancel_r in E. }
  split.
  - intros pk1 pk2 Hne E. by apply Hne, Hinj.
  - intros a b Hne E. apply Hne. apply Hinj in E. simpl in E.
    by apply (inj pretty) in E.
Qed.

Lemma not_found_message_tells_keys_apart_witness :
  (1 : Z) ≠ 12
  ∧ DBStorage.not_found_message Mem.storage (PyInt 1)
    ≠ DBStorage.not_found_message Mem.storage (PyInt 12).
Proof.
  assert (Hne : (1 : Z) ≠ 12) by lia.
  exact (conj Hne
    (proj2 (not_found_message_tells_keys_apart Mem.storage) 1 12 Hne)).
Defined.

(** ** More about the binding component *)

Section BindMore.
Implicit Types (cls : gmap string pyval) (n attr : string).
Implicit Types (items : list (string * option string)).

Lemma keyed_by_snd {A} (l : list (string * A)) a b v :
  NoDup l.*2 → (a, v) ∈ l → (b, v) ∈ l → a = b.
Proof.
  induction l as [|[k c] l IH]; intros Hnd Ha Hb.
  - by apply elem_of_nil in Ha.
  - cbn [fmap list_fmap snd] in Hnd. apply NoDup_cons in Hnd as [Hk Hnd].
    apply elem_of_cons in Ha as [Ha|Ha], Hb as [Hb|Hb].
    + congruence.
    + injection Ha as -> ->. exfalso. apply Hk.
      apply list_elem_of_fmap. by exists (b, c).
    + injection Hb as -> ->. exfalso. apply Hk.
      apply list_elem_of_fmap. by exists (a, c).
    + by apply IH.
Qed.

Lemma default_names (e p : string) :
  NoDup [ Some ("get_" +:+ e); Some ("list_" +:+ p); Some ("page_" +:+ p);
          Some ("count_" +:+ p); Some ("create_" +:+ e);
          Some ("update_" +:+ e); Some ("delete_" +:+ e) ].
Proof.
  repeat (apply NoDup_cons; split;
    [rewrite ?elem_of_cons, elem_of_nil; intros Hin;
     repeat (destruct Hin as [Hin|Hin]; [discriminate Hin|]); exact Hin |]).
  apply NoDup_nil_2.
Qed.

(** X8.  With every method name left at its default, the seven resolved
    names are non-empty and pairwise different whatever the entity names
    are, so no operation is suppressed and none hides another; on a class
    that has none of the seven names true, [bind] puts under each name the
    synthesized method of its own operation. *)
Theorem default_names_are_all_attached sp model en enp kw cls attr :
  let self :=
    AutoCrud.__init__ sp model en enp AutoCrud.DEFAULT AutoCrud.DEFAULT
      AutoCrud.DEFAULT AutoCrud.DEFAULT AutoCrud.DEFAULT AutoCrud.DEFAULT
      AutoCrud.DEFAULT kw in
  NoDup (AutoCrud.method_names self).*2
  ∧ (∀ fn rpc_name, (fn, rpc_name) ∈ AutoCrud.method_names self →
       name_truthy rpc_name = true)
  ∧ ((∀ fn n, (fn, Some n) ∈ AutoCrud.method_names self →
        truthy (AutoCrud.class_getattr cls n) = false) →
     ∀ fn n, (fn, Some n) ∈ AutoCrud.method_names self →
       (AutoCrud.bind self cls attr).2 !! n = Some (PyManagerFn attr fn)).
Proof.
  intros self.
  assert (NoDup (AutoCrud.method_names self).*2) as Hnd
    by apply default_names.
  assert (∀ fn rpc_name, (fn, rpc_name) ∈ AutoCrud.method_names self →
            name_truthy rpc_name = true) as Htrue.
  { intros fn rpc_name Hin.
    cbn [self AutoCrud.__init__ AutoCrud.method_names] in Hin.
    repeat (apply elem_of_cons in Hin as [Hin|Hin];
            [injection Hin as -> ->; reflexivity|]).
    by apply elem_of_nil in Hin. }
  split; [exact Hnd|]. split; [exact Htrue|].
  intros Hfree fn n Hin.
  apply bind_loop_attaches.
  - exact Hin.
  - by destruct (name_truthy_Some (Some n) (Htrue fn (Some n) Hin)).
  - by apply (Hfree fn).
  - intros fn' Hin'. exact (keyed_by_snd _ fn' fn (Some n) Hnd Hin' Hin).
Qed.

Lemma bind_loop_first_wins attr l1 fn n l2 cls :
  (∀ fn', (fn', Some n) ∉ l1) → n ≠ "" →
  truthy (AutoCrud.class_getattr cls n) = false →
  foldl (AutoCrud.bind_method attr) cls (l1 ++ (fn, Some n) :: l2) !! n
  = Some (PyManagerFn attr fn).
Proof.
  intros Hfirst Hn Hfalse. rewrite foldl_app. cbn [foldl].
  assert (foldl (AutoCrud.bind_method attr) cls l1 !! n = cls !! n) as Hsame.
  { destruct (decide (foldl (AutoCrud.bind_method attr) cls l1 !! n
                      = cls !! n)) as [E|Hchanged]; [exact E|].
    destruct (bind_loop_changes attr l1 cls n Hchanged)
      as (_ & _ & fn' & Hin & _).
    by destruct (Hfirst fn'). }
  set (cls1 := foldl (AutoCrud.bind_method attr) cls l1) in *.
  assert (AutoCrud.bind_method attr cls1 (fn, Some n) !! n
          = Some (PyManagerFn attr fn)) as Hset.
  { unfold AutoCrud.bind_method. change (default "" (Some n)) with n.
    rewrite (class_getattr_lookup _ _ _ Hsame), Hfalse.
    assert (name_truthy (Some n) = true) as ->.
    { unfold name_truthy. simpl. by destruct (String.eqb_spec n ""). }
    simpl. by rewrite lookup_insert_eq. }
  rewrite bind_loop_keeps; [exact Hset|].
  unfold AutoCrud.class_getattr. by rewrite Hset.
Qed.

(** X9.  When several operations resolve to one name, the first of them in
    the order get, list, page, count, create, update, delete gets the
    method and the later ones get none: if the name is non-empty and not
    yet true on the class, [bind] leaves under it the synthesized method of
    the first operation that carries it. *)
Theorem first_operation_takes_a_shared_name
    (self : AutoCrud.t) cls attr l1 fn n l2 :
  AutoCrud.method_names self = l1 ++ (fn, Some n) :: l2 →
  (∀ fn', (fn', Some n) ∉ l1) → n ≠ "" →
  truthy (AutoCrud.class_getattr cls n) = false →
  (AutoCrud.bind self cls attr).2 !! n = Some (PyManagerFn attr fn)
  ∧ ∀ fn', fn' ≠ fn → ∀ n',
      (AutoCrud.bind self cls attr).2 !! n' = Some (PyManagerFn attr fn') →
      n' ≠ n.
Proof.
  intros Hnames Hfirst Hn Hfalse.
  assert ((AutoCrud.bind self cls attr).2 !! n = Some (PyManagerFn attr fn))
    as Hwin.
  { cbn [AutoCrud.bind snd]. rewrite Hnames.
    by apply bind_loop_first_wins. }
  split; [exact Hwin|].
  intros fn' Hne n' Hn' ->. congruence.
Qed.

(** X10.  A second provider is shadowed by the first: when every non-empty
    name of the second is also a name of the first, binding the second
    after the first leaves the class as the first made it, so the methods
    keep delegating to the first provider's attribute. *)
Theorem second_provider_is_shadowed
    (first second : AutoCrud.t) cls attr1 attr2 :
  (∀ fn rpc_name, (fn, rpc_name) ∈ AutoCrud.method_names second →
     name_truthy rpc_name = true →
     ∃ fn1, (fn1, rpc_name) ∈ AutoCrud.method_names first) →
  (AutoCrud.bind second (AutoCrud.bind first cls attr1).2 attr2).2
  = (AutoCrud.bind first cls attr1).2.
Proof.
  intros Hsub. cbn [AutoCrud.bind snd].
  apply bind_loop_fixpoint. intros fn rpc_name Hin Hname.
  destruct (Hsub fn rpc_name Hin Hname) as [fn1 Hin1].
  by apply bind_loop_saturates with fn1.
Qed.

(** X11.  [bind] leaves the service class as it is exactly when every
    non-empty resolved name already holds a true value on the class; in
    particular it does so when every operation is suppressed. *)
Theorem bind_changes_nothing_iff_names_taken (self : AutoCrud.t) cls attr :
  (AutoCrud.bind self cls attr).2 = cls
  ↔ (∀ fn rpc_name, (fn, rpc_name) ∈ AutoCrud.method_names self →
       name_truthy rpc_name = true →
       truthy (AutoCrud.class_getattr cls (default "" rpc_name)) = true).
Proof.
  cbn [AutoCrud.bind snd]. split.
  - intros Hfix fn rpc_name Hin Hname. rewrite <- Hfix.
    by apply bind_loop_saturates with fn.
  - apply bind_loop_fixpoint.
Qed.

End BindMore.

Lemma default_names_are_all_attached_witness :
  (∀ fn n, (fn, Some n) ∈ AutoCrud.method_names widget_crud →
     truthy (AutoCrud.class_getattr ∅ n) = false)
  ∧ ("count", Some "count_widgets") ∈ AutoCrud.method_names widget_crud
  ∧ (AutoCrud.bind widget_crud ∅ "crud").2 !! "count_widgets"
    = Some (PyManagerFn "crud" "count").
Proof.
  assert (Hfree : ∀ fn n,
            (fn, Some n) ∈ AutoCrud.method_names widget_crud →
            truthy (AutoCrud.class_getattr ∅ n) = false).
  { intros fn n _. unfold AutoCrud.class_getattr. by rewrite lookup_empty. }
  assert (Hin : ("count", Some "count_widgets")
                ∈ AutoCrud.method_names widget_crud).
  { rewrite widget_crud_names.
    do 3 apply list_elem_of_further. apply list_elem_of_here. }
  destruct (default_names_are_all_attached (AutoCrud.ProviderStr "db")
              Mem.Widget None None [] ∅ "crud") as (_ & _ & Hall).
  exact (conj Hfree (conj Hin (Hall Hfree "count" "count_widgets" Hin))).
Defined.

Lemma first_operation_takes_a_shared_name_witness :
  AutoCrud.method_names clashing_crud
  = [("get", Some "get_widget")]
    ++ ("list", Some "widgets")
       :: [("page", Some "widgets"); ("count", Some "count_widgets");
           ("create", Some "create_widget");
           ("update", Some "update_widget");
           ("delete", Some "delete_widget")]
  ∧ (∀ fn', (fn', Some "widgets") ∉ [("get", Some "get_widget")])
  ∧ "widgets" ≠ ""
  ∧ truthy (AutoCrud.class_getattr ∅ "widgets") = false
  ∧ (AutoCrud.bind clashing_crud ∅ "crud").2 !! "widgets"
    = Some (PyManagerFn "crud" "list").
Proof.
  assert (Hnames : AutoCrud.method_names clashing_crud
                   = [("get", Some "get_widget")]
                     ++ ("list", Some "widgets")
                        :: [("page", Some "widgets");
                            ("count", Some "count_widgets");
                            ("create", Some "create_widget");
                            ("update", Some "update_widget");
                            ("delete", Some "delete_widget")])
    by reflexivity.
  assert (Hfirst : ∀ fn', (fn', Some "widgets")
                          ∉ [("get", Some "get_widget")]).
  { intros fn' Hin. apply list_elem_of_singleton in Hin. discriminate Hin. }
  assert (Hn : "widgets" ≠ "") by discriminate.
  assert (Hfalse : truthy (AutoCrud.class_getattr ∅ "widgets") = false)
    by reflexivity.
  exact (conj Hnames (conj Hfirst (conj Hn (conj Hfalse
    (proj1 (first_operation_takes_a_shared_name clashing_crud ∅ "crud"
              _ "list" "widgets" _ Hnames Hfirst Hn Hfalse)))))).
Defined.

Lemma second_provider_is_shadowed_witness :
  (∀ fn rpc_name, (fn, rpc_name) ∈ AutoCrud.method_names widget_crud →
     name_truthy rpc_name = true →
     ∃ fn1, (fn1, rpc_name) ∈ AutoCrud.method_names widget_crud)
  ∧ (AutoCrud.bind widget_crud
       (AutoCrud.bind widget_crud user_class "crud").2 "other").2
    = (AutoCrud.bind widget_crud user_class "crud").2.
Proof.
  assert (Hsub : ∀ fn rpc_name,
            (fn, rpc_name) ∈ AutoCrud.method_names widget_crud →
            name_truthy rpc_name = true →
            ∃ fn1, (fn1, rpc_name) ∈ AutoCrud.method_names widget_crud)
    by (intros fn rpc_name Hin _; by exists fn).
  exact (conj Hsub
    (second_provider_is_shadowed widget_crud widget_crud user_class
       "crud" "other" Hsub)).
Defined.

Lemma silent_crud_names :
  AutoCrud.method_names silent_crud
  = [ ("get", None); ("list", None); ("page", None); ("count", Some "");
      ("create", Some ""); ("update", Some ""); ("delete", None) ].
Proof. reflexivity. Qed.

Lemma bind_changes_nothing_iff_names_taken_witness :
  (∀ fn rpc_name, (fn, rpc_name) ∈ AutoCrud.method_names silent_crud →
     name_truthy rpc_name = true →
     truthy (AutoCrud.class_getattr user_class (default "" rpc_name)) = true)
  ∧ (AutoCrud.bind silent_crud user_class "crud").2 = user_class.
Proof.
  assert (Hnone : ∀ fn rpc_name,
            (fn, rpc_name) ∈ AutoCrud.method_names silent_crud →
            name_truthy rpc_name = true →
            truthy (AutoCrud.class_getattr user_class (default "" rpc_name))
            = true).
  { intros fn rpc_name Hin. rewrite silent_crud_names in Hin.
    repeat (apply elem_of_cons in Hin as [Hin|Hin];
            [injection Hin as -> ->; discriminate|]).
    by apply elem_of_nil in Hin. }
  exact (conj Hnone
    (proj2 (bind_changes_nothing_iff_names_taken silent_crud user_class
              "crud") Hnone)).
Defined.

(** ** More about the worker setup *)

Section SetupMore.
Implicit Types (service : AutoCrud.Service) (self : AutoCrud.t).

(** X12.  [get_dependency] makes a storage of the provider's model class
    with no session.  When the session accessor is an attribute name under
    which the service holds a session object, and the service holds that
    storage under the provider's attribute, [worker_setup] succeeds and
    leaves the same storage with the session attached; the attributes of
    the service and every other storage are as before. *)
Theorem worker_setup_attaches_the_fresh_storage
    self service name attr sid id :
  AutoCrud.session_accessor self
  = AutoCrud.get_dependency_accessor (AutoCrud.ProviderStr name) →
  AutoCrud.attr_name self = Some attr →
  AutoCrud.attrs service !! name = Some (PyObj sid) →
  AutoCrud.attrs service !! attr = Some (PyObj id) →
  AutoCrud.storages service !! id = Some (AutoCrud.get_dependency self) →
  attached (AutoCrud.get_dependency self) = false
  ∧ ∃ service',
      AutoCrud.worker_setup self service = (Return tt, service')
      ∧ AutoCrud.attrs service' = AutoCrud.attrs service
      ∧ AutoCrud.storages service' !! id
        = Some (DBStorage.__init__ (AutoCrud.model_cls self) (PyObj sid))
      ∧ attached (DBStorage.__init__ (AutoCrud.model_cls self) (PyObj sid))
        = true
      ∧ ∀ id', id' ≠ id →
          AutoCrud.storages service' !! id' = AutoCrud.storages service !! id'.
Proof.
  intros Hacc Hattr Hname Hget Hst. split; [reflexivity|].
  eexists. split.
  - apply (worker_setup_attaches self service attr (PyObj sid) service id
             (AutoCrud.get_dependency self) Hattr); [|exact Hget|exact Hst].
    rewrite Hacc. by apply getattr_present.
  - cbn [AutoCrud.attrs AutoCrud.storages].
    split; [reflexivity|].
    split; [by rewrite lookup_insert_eq|].
    split; [reflexivity|].
    intros id' Hne. by rewrite lookup_insert_ne.
Qed.

(** X13.  [worker_setup] fails without touching anything it has not yet
    reached.  When the session accessor is an attribute name the service
    does not have, it raises [AttributeError] for that name and the service
    is unchanged.  When the session resolves but the service has nothing
    under the provider's attribute, it raises [AttributeError] for that
    attribute and no storage is changed. *)
Theorem worker_setup_fails_cleanly self service :
  (∀ name,
     AutoCrud.session_accessor self
     = AutoCrud.get_dependency_accessor (AutoCrud.ProviderStr name) →
     AutoCrud.attrs service !! name = None →
     AutoCrud.worker_setup self service
     = (Raise (AttributeError name), service))
  ∧ (∀ attr session service',
       AutoCrud.attr_name self = Some attr →
       AutoCrud.session_accessor self service = (Return session, service') →
       AutoCrud.attrs service' !! attr = None →
       AutoCrud.worker_setup self service
       = (Raise (AttributeError attr), service')).
Proof.
  split.
  - intros name Hacc Hnone.
    unfold AutoCrud.worker_setup, mbind, St_bind. rewrite Hacc.
    cbn [AutoCrud.get_dependency_accessor]. unfold AutoCrud.getattr.
    by rewrite Hnone.
  - intros attr session service' Hattr Hacc Hnone.
    unfold AutoCrud.worker_setup, mbind, St_bind. rewrite Hacc, Hattr.
    unfold AutoCrud.getattr. by rewrite Hnone.
Qed.

End SetupMore.

Lemma worker_setup_attaches_the_fresh_storage_witness :
  AutoCrud.session_accessor bound_crud
  = AutoCrud.get_dependency_accessor (AutoCrud.ProviderStr "db")
  ∧ AutoCrud.attr_name bound_crud = Some "crud"
  ∧ AutoCrud.attrs ready_service !! "db" = Some (PyObj 5)
  ∧ AutoCrud.attrs ready_service !! "crud" = Some (PyObj 0)
  ∧ AutoCrud.storages ready_service !! 0%nat
    = Some (AutoCrud.get_dependency bound_crud)
  ∧ attached (AutoCrud.get_dependency bound_crud) = false
  ∧ ∃ service',
      AutoCrud.worker_setup bound_crud ready_service = (Return tt, service')
      ∧ AutoCrud.attrs service' = AutoCrud.attrs ready_service
      ∧ AutoCrud.storages service' !! 0%nat
        = Some (DBStorage.__init__ (AutoCrud.model_cls bound_crud) (PyObj 5))
      ∧ attached
          (DBStorage.__init__ (AutoCrud.model_cls bound_crud) (PyObj 5))
        = true
      ∧ ∀ id', id' ≠ 0%nat →
          AutoCrud.storages service' !! id'
          = AutoCrud.storages ready_service !! id'.
Proof.
  assert (Hacc : AutoCrud.session_accessor bound_crud
                 = AutoCrud.get_dependency_accessor
                     (AutoCrud.ProviderStr "db")) by reflexivity.
  assert (Hattr : AutoCrud.attr_name bound_crud = Some "crud")
    by reflexivity.
  assert (Hdb : AutoCrud.attrs ready_service !! "db" = Some (PyObj 5))
    by (vm_compute; reflexivity).
  assert (Hcrud : AutoCrud.attrs ready_service !! "crud" = Some (PyObj 0))
    by (vm_compute; reflexivity).
  assert (Hst : AutoCrud.storages ready_service !! 0%nat
                = Some (AutoCrud.get_dependency bound_crud))
    by (vm_compute; reflexivity).
  exact (conj Hacc (conj Hattr (conj Hdb (conj Hcrud (conj Hst
    (worker_setup_attaches_the_fresh_storage bound_crud ready_service
       "db" "crud" 5%nat 0%nat Hacc Hattr Hdb Hcrud Hst)))))).
Defined.

Lemma worker_setup_fails_cleanly_witness :
  AutoCrud.session_accessor bound_crud
  = AutoCrud.get_dependency_accessor (AutoCrud.ProviderStr "db")
  ∧ AutoCrud.attrs sessionless_service !! "db" = None
  ∧ AutoCrud.worker_setup bound_crud sessionless_service
    = (Raise (AttributeError "db"), sessionless_service).
Proof.
  assert (Hacc : AutoCrud.session_accessor bound_crud
                 = AutoCrud.get_dependency_accessor
                     (AutoCrud.ProviderStr "db")) by reflexivity.
  assert (Hnone : AutoCrud.attrs sessionless_service !! "db" = None)
    by (vm_compute; reflexivity).
  exact (conj Hacc (conj Hnone
    (proj1 (worker_setup_fails_cleanly bound_crud sessionless_service)
       "db" Hacc Hnone))).
Defined.
